(** * euraxess-mcp: the feed normaliser and the two HTTP operations

    A shallow embedding of [euraxess/app/euraxess_mcp.py].  Python values are
    the ones the XML-to-structure conversion hands to the program ([None],
    strings, mappings, lists); a raised exception is a [Raise] result; the
    [lru_cache] decorator is an explicit cache threaded through the calls; the
    libraries the module imports (xmltodict, dateutil, httpx) are the fields
    of the [Libs] interface. *)

From Stdlib Require Import String Ascii List ZArith Lia Bool Arith.
Import ListNotations.
Open Scope string_scope.

(** ** Python values *)

Set Warnings "-register-all".

(** What [xmltodict.parse] can return: an element without children, text or
    attributes is [None], an element with text only is a string, any other
    element is a mapping (attributes under [@name], text under [#text]), and
    children that repeat a tag are collected in a list. *)
Inductive pyval : Type :=
| PNone
| PStr (s : string)
| PDict (d : list (string * pyval))
| PList (l : list pyval).

Definition pydict : Type := list (string * pyval).

(** The exceptions the module can raise or let through: the first three come
    from its own steps, [ExpatError] and [ValueError] from the XML
    conversion (a text that is not well-formed; a declaration the conversion
    refuses), [InvalidURL] from the HTTP client. *)
Inductive exn : Type :=
| AttributeError
| TypeError
| ValidationError
| ExpatError
| ValueError
| InvalidURL.

Inductive result (A : Type) : Type :=
| Ok (a : A)
| Raise (e : exn).

Arguments Ok {A} a.
Arguments Raise {A} e.

Definition bind {A B : Type} (m : result A) (k : A -> result B) : result B :=
  match m with
  | Ok a => k a
  | Raise e => Raise e
  end.

Notation "x <- m ;; k" := (bind m (fun x => k))
  (at level 61, m at next level, right associativity).

Definition is_ok {A : Type} (m : result A) : bool :=
  match m with
  | Ok _ => true
  | Raise _ => false
  end.

(** [d[k]] when the key is there: the first binding of [k]. *)
Fixpoint dict_lookup (k : string) (d : pydict) : option pyval :=
  match d with
  | [] => None
  | (k', v) :: d' => if String.eqb k k' then Some v else dict_lookup k d'
  end.

(** [obj.get(k, default)]: only a mapping has [get]. *)
Definition py_get (obj : pyval) (k : string) (default : pyval) : result pyval :=
  match obj with
  | PDict d =>
      Ok (match dict_lookup k d with
          | Some v => v
          | None => default
          end)
  | _ => Raise AttributeError
  end.

(** Python truthiness. *)
Definition truthy (v : pyval) : bool :=
  match v with
  | PNone => false
  | PStr s => negb (String.eqb s "")
  | PDict d => negb (Nat.eqb (List.length d) 0)
  | PList l => negb (Nat.eqb (List.length l) 0)
  end.

(** [a or b]. *)
Definition py_or (a b : pyval) : pyval := if truthy a then a else b.

(** [isinstance(v, dict)]. *)
Definition isinstance_dict (v : pyval) : bool :=
  match v with
  | PDict _ => true
  | _ => false
  end.

(** [for it in v]: a list yields its elements, a string its characters, a
    mapping its keys; [None] is not iterable. *)
Definition py_iter (v : pyval) : result (list pyval) :=
  match v with
  | PList l => Ok l
  | PStr s => Ok (map (fun c => PStr (String c EmptyString)) (list_ascii_of_string s))
  | PDict d => Ok (map (fun kv => PStr (fst kv)) d)
  | PNone => Raise TypeError
  end.

(** [[f(x) for x in l]]: the first exception ends the comprehension. *)
Fixpoint list_comp {A B : Type} (f : A -> result B) (l : list A) : result (list B) :=
  match l with
  | [] => Ok []
  | x :: l' =>
      y <- f x ;;
      ys <- list_comp f l' ;;
      Ok (y :: ys)
  end.

(** [l[:k]], also for a negative [k]. *)
Definition py_slice_to {A : Type} (k : Z) (l : list A) : list A :=
  if (0 <=? k)%Z then firstn (Z.to_nat k) l
  else firstn (List.length l - Z.to_nat (- k)) l.

Definition py_of_opt (o : option string) : pyval :=
  match o with
  | Some s => PStr s
  | None => PNone
  end.

(** ** Dates *)

Record date : Type := { year : Z; month : Z; day : Z }.

Record datetime : Type :=
  { dt_year : Z; dt_month : Z; dt_day : Z; hour : Z; minute : Z; second : Z }.

(** [datetime.date()]: the year, month and day, without the time of day. *)
Definition datetime_date (dt : datetime) : date :=
  {| year := dt_year dt; month := dt_month dt; day := dt_day dt |}.

(** The last decimal digit of [n], as a character. *)
Definition digit (n : Z) : ascii := ascii_of_nat (Z.to_nat (48 + n mod 10)).

Definition zfill2 (n : Z) : string :=
  String (digit (n / 10)) (String (digit n) EmptyString).

Definition zfill4 (n : Z) : string :=
  String (digit (n / 1000)) (String (digit (n / 100)) (zfill2 n)).

(** [date.isoformat()]: ["%04d-%02d-%02d"]. *)
Definition date_isoformat (d : date) : string :=
  zfill4 (year d) ++ "-" ++ zfill2 (month d) ++ "-" ++ zfill2 (day d).

(** The range Python keeps every date in. *)
Definition valid_date (d : date) : Prop :=
  (1 <= year d <= 9999 /\ 1 <= month d <= 12 /\ 1 <= day d <= 31)%Z.

Definition is_digit (c : ascii) : bool :=
  ((48 <=? nat_of_ascii c) && (nat_of_ascii c <=? 57))%nat.

(** The shape [dddd-dd-dd] and nothing after it. *)
Definition is_iso_date (s : string) : bool :=
  match list_ascii_of_string s with
  | [y1; y2; y3; y4; h1; m1; m2; h2; d1; d2] =>
      forallb is_digit [y1; y2; y3; y4; m1; m2; d1; d2]
      && Ascii.eqb h1 "-" && Ascii.eqb h2 "-"
  | _ => false
  end.

Definition digit_value (c : ascii) : Z := Z.of_nat (nat_of_ascii c) - 48.

(** The date an ISO-8601 date string denotes. *)
Definition iso_decode (s : string) : option date :=
  match list_ascii_of_string s with
  | [y1; y2; y3; y4; _; m1; m2; _; d1; d2] =>
      if is_iso_date s
      then Some {| year := 1000 * digit_value y1 + 100 * digit_value y2
                           + 10 * digit_value y3 + digit_value y4;
                   month := 10 * digit_value m1 + digit_value m2;
                   day := 10 * digit_value d1 + digit_value d2 |}
      else None
  | _ => None
  end.

(** ** The record *)

Record JobItem : Type :=
  { source : string;
    source_ref : option string;
    url : option string;
    title : option string;
    description_raw : option string;
    posted_date : option string;
    raw : option pydict }.

(** Field validation of the model class: a [str] field takes a string, an
    [Optional[str]] field a string or [None], [Optional[dict]] a mapping or
    [None]; any other value is a [ValidationError]. *)
Definition validate_str (v : pyval) : result string :=
  match v with
  | PStr s => Ok s
  | _ => Raise ValidationError
  end.

Definition validate_optional_str (v : pyval) : result (option string) :=
  match v with
  | PNone => Ok None
  | PStr s => Ok (Some s)
  | _ => Raise ValidationError
  end.

Definition validate_optional_dict (v : pyval) : result (option pydict) :=
  match v with
  | PNone => Ok None
  | PDict d => Ok (Some d)
  | _ => Raise ValidationError
  end.

(** [JobItem(source=..., ..., raw=...)]. *)
Definition JobItem_new
  (source_v source_ref_v url_v title_v description_raw_v posted_date_v raw_v : pyval)
  : result JobItem :=
  so <- validate_str source_v ;;
  sr <- validate_optional_str source_ref_v ;;
  u <- validate_optional_str url_v ;;
  t <- validate_optional_str title_v ;;
  de <- validate_optional_str description_raw_v ;;
  pd <- validate_optional_str posted_date_v ;;
  r <- validate_optional_dict raw_v ;;
  Ok {| source := so; source_ref := sr; url := u; title := t;
        description_raw := de; posted_date := pd; raw := r |}.

(** [i.dict()]. *)
Definition JobItem_dict (i : JobItem) : pydict :=
  [ ("source", PStr (source i));
    ("source_ref", py_of_opt (source_ref i));
    ("url", py_of_opt (url i));
    ("title", py_of_opt (title i));
    ("description_raw", py_of_opt (description_raw i));
    ("posted_date", py_of_opt (posted_date i));
    ("raw", match raw i with Some d => PDict d | None => PNone end) ].

(** ** The imported libraries and the configuration *)

(** [xmltodict_parse] is the outcome of [xmltodict.parse]: the converted
    document, or the exception the conversion raises ([ExpatError] on a text
    that is not well-formed XML, [ValueError] on an entity declaration);
    [dateparser_parse] is [None] where [dateutil.parser.parse] raises;
    [raise_for_status] tells whether [Response.raise_for_status] raises
    [HTTPStatusError] at a status code; [DEFAULT_LIMIT] is read from the
    environment at start-up. An instance is the libraries as they answer at
    one time: [dateutil] takes the date parts a timestamp leaves out from
    the current day, so the date parser of another day is another
    instance. *)
Class Libs : Type :=
  { xmltodict_parse : string -> result pyval;
    dateparser_parse : pyval -> option datetime;
    raise_for_status : Z -> bool;
    DEFAULT_LIMIT : Z }.

(** What the HTTP client documents for [raise_for_status]: it raises on every
    4xx and 5xx status and on no 2xx status. *)
Definition status_contract (L : Libs) : Prop :=
  (forall s, (400 <= s <= 599)%Z -> raise_for_status s = true) /\
  (forall s, (200 <= s <= 299)%Z -> raise_for_status s = false).

(** An upstream response, as the handlers read it: [r.status_code],
    [dict(r.headers)] and [r.text]. *)
Record Response : Type :=
  { status_code : Z;
    headers : list (string * string);
    text : string }.

(** The outcome of [client.get]: an [httpx.HTTPError] of the transport, a
    response, or an exception that is no [httpx.HTTPError] (such as
    [httpx.InvalidURL] on a malformed URL), which the handlers do not
    catch. *)
Inductive fetch : Type :=
| TransportError
| Received (r : Response)
| Escaped (e : exn).

(** What a handler answers. *)
Inductive http_response (A : Type) : Type :=
| Response200 (body : A)
| HTTPException (code : Z) (detail : string)
| RequestValidationError
| ServerError (e : exn).

Arguments Response200 {A} body.
Arguments HTTPException {A} code detail.
Arguments RequestValidationError {A}.
Arguments ServerError {A} e.

Record ListJobsResult : Type := { count : Z; jobs : list pydict }.

Record GetJobResult : Type :=
  { job_url : string;
    job_status_code : Z;
    job_headers : list (string * string);
    raw_html : string }.

(** The memoisation table of [lru_cache]: most recently used first. *)
Definition lru_table : Type := list (string * list JobItem).

Definition maxsize : nat := 32.

Fixpoint table_lookup (k : string) (c : lru_table) : option (list JobItem) :=
  match c with
  | [] => None
  | (k', v) :: c' => if String.eqb k k' then Some v else table_lookup k c'
  end.

Definition table_remove (k : string) (c : lru_table) : lru_table :=
  filter (fun kv => negb (String.eqb k (fst kv))) c.

Section Program.

Context {L : Libs}.

(** ** [_parse_item] *)

(** Lines 30-34: the date of [pubDate], [None] where it is falsy or the
    parser raises. *)
Definition posted_date_of (pubDate : pyval) : option string :=
  if truthy pubDate then
    match dateparser_parse pubDate with
    | Some dt => Some (date_isoformat (datetime_date dt))
    | None => None
    end
  else None.

Definition _parse_item (item : pyval) : result JobItem :=
  title_v <- py_get item "title" PNone ;;
  link <- py_get item "link" PNone ;;
  description <- py_get item "description" PNone ;;
  let desc := py_or description (PStr "") in
  pubDate <- py_get item "pubDate" PNone ;;
  let posted := posted_date_of pubDate in
  guid <- py_get item "guid" PNone ;;
  let source_ref_v := py_or guid link in
  JobItem_new (PStr "euraxess") source_ref_v link title_v desc (py_of_opt posted) item.

(** ** [parse_rss_text_to_items] *)

(** Lines 49-52: the values the comprehension runs over. *)
Definition feed_items (data : pyval) : result (list pyval) :=
  rss <- py_get data "rss" (PDict []) ;;
  channel <- py_get rss "channel" (PDict []) ;;
  items <- py_get channel "item" (PList []) ;;
  let items' := if isinstance_dict items then PList [items] else items in
  py_iter items'.

(** The function under the decorator. *)
Definition parse_rss_text_to_items__wrapped (rss_text : string) : result (list JobItem) :=
  data <- xmltodict_parse rss_text ;;
  its <- feed_items data ;;
  list_comp _parse_item its.

(** The decorated function: a hit returns the stored value and makes the key
    the most recent one; a miss runs the function, stores its value (an
    exception stores nothing) and drops the least recent key over [maxsize]. *)
Definition parse_rss_text_to_items (rss_text : string) (c : lru_table)
  : result (list JobItem) * lru_table :=
  match table_lookup rss_text c with
  | Some v => (Ok v, (rss_text, v) :: table_remove rss_text c)
  | None =>
      match parse_rss_text_to_items__wrapped rss_text with
      | Ok v => (Ok v, firstn maxsize ((rss_text, v) :: c))
      | Raise e => (Raise e, c)
      end
  end.

(** A run of calls, one text after the other, on one table. *)
Fixpoint parse_calls (texts : list string) (c : lru_table)
  : list (result (list JobItem)) * lru_table :=
  match texts with
  | [] => ([], c)
  | t :: ts =>
      let (r, c1) := parse_rss_text_to_items t c in
      let (rs, c2) := parse_calls ts c1 in
      (r :: rs, c2)
  end.

(** ** The handlers *)

(** [limit]: [None] when the query leaves it out (the default is not
    validated), otherwise within [ge=1, le=500]. *)
Definition query_limit (limit : option Z) : option Z :=
  match limit with
  | None => Some DEFAULT_LIMIT
  | Some k => if ((1 <=? k) && (k <=? 500))%Z then Some k else None
  end.

Definition list_jobs (limit : option Z) (upstream : fetch) (c : lru_table)
  : http_response ListJobsResult * lru_table :=
  match query_limit limit with
  | None => (RequestValidationError, c)
  | Some k =>
      match upstream with
      | TransportError => (HTTPException 502 "Failed to fetch euraxess feed", c)
      | Received r =>
          if raise_for_status (status_code r)
          then (HTTPException 502 "Failed to fetch euraxess feed", c)
          else
            match parse_rss_text_to_items (text r) c with
            | (Raise e, c') => (ServerError e, c')
            | (Ok items, c') =>
                (Response200
                   {| count := Z.of_nat (List.length (py_slice_to k items));
                      jobs := map JobItem_dict (py_slice_to k items) |}, c')
            end
      | Escaped e => (ServerError e, c)
      end
  end.

(** [url]: [None] when the query leaves the required parameter out. *)
Definition get_job (url_q : option string) (upstream : fetch) : http_response GetJobResult :=
  match url_q with
  | None => RequestValidationError
  | Some u =>
      match upstream with
      | TransportError => HTTPException 502 "Failed to fetch job URL"
      | Received r =>
          if raise_for_status (status_code r)
          then HTTPException 502 "Failed to fetch job URL"
          else Response200
                 {| job_url := u;
                    job_status_code := status_code r;
                    job_headers := headers r;
                    raw_html := text r |}
      | Escaped e => ServerError e
      end
  end.

(** ** Vocabulary of the statements *)

(** The value under a key of an entry, [None] for a key that is not there. *)
Definition field (e : pydict) (k : string) : pyval :=
  match dict_lookup k e with
  | Some v => v
  | None => PNone
  end.

(** The entry with [v] under [k] and every other key as in [e]. *)
Definition dict_set (k : string) (v : pyval) (e : pydict) : pydict :=
  (k, v) :: filter (fun kv => negb (String.eqb k (fst kv))) e.

(** The channel of a converted document: [data["rss"]["channel"]], where
    both elements are mappings. *)
Definition feed_channel (data : pyval) : option pydict :=
  match data with
  | PDict root =>
      match dict_lookup "rss" root with
      | Some (PDict rss) =>
          match dict_lookup "channel" rss with
          | Some (PDict ch) => Some ch
          | _ => None
          end
      | _ => None
      end
  | _ => None
  end.

(** The item elements of a channel, in document order, as the conversion
    stores them: no [item] key for none, the item alone for one, a list for
    several. *)
Definition channel_items (ch : pydict) : list pyval :=
  match dict_lookup "item" ch with
  | None => []
  | Some (PList l) => l
  | Some v => [v]
  end.

Definition is_text_or_none (v : pyval) : bool :=
  match v with
  | PNone | PStr _ => true
  | _ => false
  end.

(** An entry whose title, link, description and guid are each missing or
    plain text (no attributes, no child elements, not repeated); [pubDate]
    is left free. *)
Definition plain_entry (e : pydict) : bool :=
  forallb (fun k => is_text_or_none (field e k)) ["title"; "link"; "description"; "guid"].

Definition plain_item (v : pyval) : bool :=
  match v with
  | PDict e => plain_entry e
  | _ => false
  end.

Definition text_of (v : pyval) : option string :=
  match v with
  | PStr s => Some s
  | _ => None
  end.

(** The record the specification's data model and policies describe for an
    entry: the guid if present and non-empty, else the link, as identifier;
    the description or the empty string; the date per the date policy; the
    entry itself as [raw]. *)
Definition JobRecord_of (e : pydict) : JobItem :=
  {| source := "euraxess";
     source_ref :=
       match field e "guid" with
       | PStr g => if String.eqb g "" then text_of (field e "link") else Some g
       | _ => text_of (field e "link")
       end;
     url := text_of (field e "link");
     title := text_of (field e "title");
     description_raw :=
       Some (match field e "description" with
             | PStr s => s
             | _ => ""
             end);
     posted_date := posted_date_of (field e "pubDate");
     raw := Some e |}.

(** A converted document [parse] gets through: [rss] and [channel] are
    mappings where they are there, and every item is a plain entry. *)
Definition tolerated (data : pyval) : bool :=
  match data with
  | PDict root =>
      match dict_lookup "rss" root with
      | None => true
      | Some (PDict rss) =>
          match dict_lookup "channel" rss with
          | None => true
          | Some (PDict ch) => forallb plain_item (channel_items ch)
          | _ => false
          end
      | _ => false
      end
  | _ => false
  end.

(** The checks of the record's constructor that an entry's fields decide;
    the date and the entry itself always pass theirs. *)
Definition fields_validate (e : pydict) : bool :=
  is_ok (validate_optional_str (py_or (field e "guid") (field e "link")))
  && is_ok (validate_optional_str (field e "link"))
  && is_ok (validate_optional_str (field e "title"))
  && is_ok (validate_optional_str (py_or (field e "description") (PStr ""))).

(** The errors of the module's own steps, as against those of the XML
    conversion and of the HTTP client. *)
Definition own_error (e : exn) : bool :=
  match e with
  | AttributeError | TypeError | ValidationError => true
  | _ => false
  end.

(** Every stored value is what the function returns on its key. *)
Definition table_sound (c : lru_table) : Prop :=
  forall k v, table_lookup k c = Some v -> parse_rss_text_to_items__wrapped k = Ok v.

End Program.

(** ** Sample documents and a sample library instance *)

Definition entry_postdoc : pydict :=
  [ ("title", PStr "Postdoc in Formal Methods");
    ("link", PStr "https://euraxess.example/jobs/1");
    ("description", PStr "Two-year position.");
    ("pubDate", PStr "Mon, 01 Jan 2024 10:00:00 GMT");
    ("guid", PStr "job-1") ].

Definition entry_phd : pydict :=
  [ ("title", PStr "PhD student");
    ("link", PStr "https://euraxess.example/jobs/2");
    ("pubDate", PStr "next week") ].

Definition entry_bare : pydict :=
  [ ("title", PStr "Lab technician") ].

(** An item whose guid carries the [isPermaLink] attribute. *)
Definition entry_permalink : pydict :=
  [ ("title", PStr "Postdoc in Formal Methods");
    ("link", PStr "https://euraxess.example/jobs/1");
    ("guid", PDict [ ("@isPermaLink", PStr "false");
                     ("#text", PStr "1 at https://euraxess.example") ]) ].

(** An item whose description holds markup as child elements. *)
Definition entry_markup : pydict :=
  [ ("title", PStr "Postdoc in Formal Methods");
    ("description", PDict [ ("p", PStr "Apply now") ]) ].

Definition rss_document (item : list (string * pyval)) : pyval :=
  PDict [ ("rss", PDict [ ("@version", PStr "2.0");
                          ("channel", PDict (("title", PStr "EURAXESS") :: item)) ]) ].

Definition feed_three : string :=
  "<rss version='2.0'><channel><title>EURAXESS</title><item><title>Postdoc in Formal Methods</title><link>https://euraxess.example/jobs/1</link><description>Two-year position.</description><pubDate>Mon, 01 Jan 2024 10:00:00 GMT</pubDate><guid>job-1</guid></item><item><title>PhD student</title><link>https://euraxess.example/jobs/2</link><pubDate>next week</pubDate></item><item><title>Lab technician</title></item></channel></rss>".

Definition feed_five : string :=
  "<rss version='2.0'><channel><title>EURAXESS</title><item><title>Postdoc in Formal Methods</title><link>https://euraxess.example/jobs/1</link><description>Two-year position.</description><pubDate>Mon, 01 Jan 2024 10:00:00 GMT</pubDate><guid>job-1</guid></item><item><title>PhD student</title><link>https://euraxess.example/jobs/2</link><pubDate>next week</pubDate></item><item><title>Lab technician</title></item><item><title>PhD student</title><link>https://euraxess.example/jobs/2</link><pubDate>next week</pubDate></item><item><title>Lab technician</title></item></channel></rss>".

Definition feed_one : string :=
  "<rss version='2.0'><channel><title>EURAXESS</title><item><title>Lab technician</title></item></channel></rss>".

Definition feed_none : string :=
  "<rss version='2.0'><channel><title>EURAXESS</title></channel></rss>".

Definition feed_permalink : string :=
  "<rss version='2.0'><channel><title>EURAXESS</title><item><title>Postdoc in Formal Methods</title><link>https://euraxess.example/jobs/1</link><guid isPermaLink='false'>1 at https://euraxess.example</guid></item></channel></rss>".

Definition feed_empty_rss : string := "<rss/>".

(** The conversion a table of documents gives: a text that is not in the
    table is not XML. *)
Definition convert_by (documents : pydict) (t : string) : result pyval :=
  match dict_lookup t documents with
  | Some d => Ok d
  | None => Raise ExpatError
  end.

(** The sample documents with their conversion. *)
Definition sample_documents : pydict :=
  [ (feed_three, rss_document [ ("item", PList [PDict entry_postdoc; PDict entry_phd; PDict entry_bare]) ]);
    (feed_five, rss_document [ ("item", PList [PDict entry_postdoc; PDict entry_phd; PDict entry_bare;
                                              PDict entry_phd; PDict entry_bare]) ]);
    (feed_one, rss_document [ ("item", PDict entry_bare) ]);
    (feed_none, rss_document []);
    (feed_permalink, rss_document [ ("item", PDict entry_permalink) ]);
    (feed_empty_rss, PDict [ ("rss", PNone) ]) ].

Definition sample_dateparser (v : pyval) : option datetime :=
  match v with
  | PStr s =>
      if String.eqb s "Mon, 01 Jan 2024 10:00:00 GMT"
      then Some {| dt_year := 2024; dt_month := 1; dt_day := 1;
                   hour := 10; minute := 0; second := 0 |}
      else None
  | _ => None
  end.

(** A library instance for the examples: the table above as XML conversion
    (any other text is not XML), a date parser that knows one timestamp, and
    [raise_for_status] raising outside 2xx. *)
Definition sample_libs : Libs :=
  {| xmltodict_parse := convert_by sample_documents;
     dateparser_parse := sample_dateparser;
     raise_for_status := fun s => negb ((200 <=? s) && (s <=? 299))%Z;
     DEFAULT_LIMIT := 50 |}.

(** The same libraries with a conversion that keeps a single item in a
    one-element list instead of collapsing it. *)
Definition listing_libs : Libs :=
  {| xmltodict_parse := fun t =>
       if String.eqb t feed_one
       then Ok (rss_document [ ("item", PList [PDict entry_bare]) ])
       else Raise ExpatError;
     dateparser_parse := sample_dateparser;
     raise_for_status := fun s => negb ((200 <=? s) && (s <=? 299))%Z;
     DEFAULT_LIMIT := 50 |}.

(** A well-formed feed with an entity declaration, which the conversion
    refuses with [ValueError]. *)
Definition feed_entity : string :=
  "<!DOCTYPE rss [<!ENTITY org 'EURAXESS'>]><rss version='2.0'><channel><title>&org;</title></channel></rss>".

(** The sample libraries with that refusal. *)
Definition strict_libs : Libs :=
  {| xmltodict_parse := fun t =>
       if String.eqb t feed_entity then Raise ValueError
       else convert_by sample_documents t;
     dateparser_parse := sample_dateparser;
     raise_for_status := fun s => negb ((200 <=? s) && (s <=? 299))%Z;
     DEFAULT_LIMIT := 50 |}.

(** A feed whose only item is an empty element, as the conversion collapses
    it and as a conversion that keeps a single item in a list gives it. *)
Definition feed_childless : string :=
  "<rss version='2.0'><channel><title>EURAXESS</title><item/></channel></rss>".

Definition collapsing_libs : Libs :=
  {| xmltodict_parse := fun t =>
       if String.eqb t feed_childless
       then Ok (rss_document [ ("item", PNone) ])
       else Raise ExpatError;
     dateparser_parse := sample_dateparser;
     raise_for_status := fun s => negb ((200 <=? s) && (s <=? 299))%Z;
     DEFAULT_LIMIT := 50 |}.

Definition keeping_libs : Libs :=
  {| xmltodict_parse := fun t =>
       if String.eqb t feed_childless
       then Ok (rss_document [ ("item", PList [PNone]) ])
       else Raise ExpatError;
     dateparser_parse := sample_dateparser;
     raise_for_status := fun s => negb ((200 <=? s) && (s <=? 299))%Z;
     DEFAULT_LIMIT := 50 |}.

(** A feed whose item gives a time of day and no date, and the libraries on
    two consecutive days: the date parser fills in the day of the call. *)
Definition entry_time_only : pydict :=
  [ ("title", PStr "Lab technician");
    ("pubDate", PStr "10:30") ].

Definition feed_time_only : string :=
  "<rss version='2.0'><channel><title>EURAXESS</title><item><title>Lab technician</title><pubDate>10:30</pubDate></item></channel></rss>".

Definition dateparser_on (today : date) (v : pyval) : option datetime :=
  match v with
  | PStr s =>
      if String.eqb s "10:30"
      then Some {| dt_year := year today; dt_month := month today;
                   dt_day := day today; hour := 10; minute := 30; second := 0 |}
      else sample_dateparser v
  | _ => None
  end.

Definition libs_on (today : date) : Libs :=
  {| xmltodict_parse := fun t =>
       if String.eqb t feed_time_only
       then Ok (rss_document [ ("item", PDict entry_time_only) ])
       else convert_by sample_documents t;
     dateparser_parse := dateparser_on today;
     raise_for_status := fun s => negb ((200 <=? s) && (s <=? 299))%Z;
     DEFAULT_LIMIT := 50 |}.

Definition new_year : date := {| year := 2024; month := 1; day := 1 |}.


Definition page_ok : Response :=
  {| status_code := 200;
     headers := [ ("content-type", "text/html; charset=utf-8") ];
     text := "<html><body>Postdoc in Formal Methods</body></html>" |}.

Definition page_not_found : Response :=
  {| status_code := 404;
     headers := [ ("content-type", "text/html") ];
     text := "<html><body>Not Found</body></html>" |}.

Definition feed_response : Response :=
  {| status_code := 200;
     headers := [ ("content-type", "application/rss+xml") ];
     text := feed_five |}.

(** ** Vocabulary of the further properties *)

(** The keys [_parse_item] reads. *)
Definition promoted_keys : list string :=
  ["title"; "link"; "description"; "pubDate"; "guid"].

(** An entry the record's constructor takes: title and link are text or
    [None], and description and guid are text wherever they are truthy. *)
Definition accepted (e : pydict) : bool :=
  is_text_or_none (field e "title")
  && is_text_or_none (field e "link")
  && (negb (truthy (field e "description")) || is_text_or_none (field e "description"))
  && (negb (truthy (field e "guid")) || is_text_or_none (field e "guid")).

(** The record [r] with another entry under [raw]. *)
Definition with_raw (r : JobItem) (e : pydict) : JobItem :=
  {| source := source r; source_ref := source_ref r; url := url r;
     title := title r; description_raw := description_raw r;
     posted_date := posted_date r; raw := Some e |}.

(** The constructor called with the values of a mapping as keyword
    arguments. *)
Definition JobItem_of_dict (d : pydict) : result JobItem :=
  JobItem_new (field d "source") (field d "source_ref") (field d "url")
    (field d "title") (field d "description_raw") (field d "posted_date")
    (field d "raw").

Definition table_keys (c : lru_table) : list string := map fst c.

(** [t] in front of the other keys. *)
Definition touch (t : string) (keys : list string) : list string :=
  t :: filter (fun k => negb (String.eqb t k)) keys.

Section History.

Context {L : Libs}.

(** The texts that parsed, each once, the most recently requested first,
    after the requests [texts] on top of the order [keys]. *)
Fixpoint recent (texts : list string) (keys : list string) : list string :=
  match texts with
  | [] => keys
  | t :: ts =>
      recent ts (if is_ok (parse_rss_text_to_items__wrapped t) then touch t keys else keys)
  end.

End History.

(** ** Calls at different times *)

(** Two instances whose XML conversion and date parser answer the same, as
    the libraries do at two times of one day. *)
Definition same_parsers (L L' : Libs) : Prop :=
  (forall t, @xmltodict_parse L' t = @xmltodict_parse L t)
  /\ (forall v, @dateparser_parse L' v = @dateparser_parse L v).


(** A run of [list_jobs] requests on one table, each with the libraries at
    its time, its limit and the outcome of its fetch. *)
Fixpoint serve_at (requests : list (Libs * (option Z * fetch))) (c : lru_table)
  : list (http_response ListJobsResult) * lru_table :=
  match requests with
  | [] => ([], c)
  | (L', (limit, upstream)) :: rest =>
      let (a, c1) := @list_jobs L' limit upstream c in
      let (answers, c2) := serve_at rest c1 in
      (a :: answers, c2)
  end.

(** ** Further sample documents *)

(** [entry_bare] with a key [_parse_item] does not read. *)
Definition entry_tagged : pydict :=
  [ ("title", PStr "Lab technician");
    ("category", PStr "Research") ].

Definition feed_mixed : string :=
  "<rss version='2.0'><channel><title>EURAXESS</title><item><title>Lab technician</title></item><item><title>Postdoc in Formal Methods</title><link>https://euraxess.example/jobs/1</link><guid isPermaLink='false'>1 at https://euraxess.example</guid></item><item><title>PhD student</title><link>https://euraxess.example/jobs/2</link><pubDate>next week</pubDate></item></channel></rss>".

Definition feed_html : string := "<html><body>Moved</body></html>".

Definition feed_empty_channel : string := "<rss version='2.0'><channel/></rss>".

Definition feed_empty_item : string :=
  "<rss version='2.0'><channel><title>EURAXESS</title><item/></channel></rss>".

Definition further_documents : pydict :=
  [ (feed_mixed,
     rss_document [ ("item", PList [PDict entry_bare; PDict entry_permalink;
                                     PDict entry_phd]) ]);
    (feed_html, PDict [ ("html", PDict [ ("body", PStr "Moved") ]) ]);
    (feed_empty_channel,
     PDict [ ("rss", PDict [ ("@version", PStr "2.0"); ("channel", PNone) ]) ]);
    (feed_empty_item, rss_document [ ("item", PNone) ]) ].

Definition further_libs : Libs :=
  {| xmltodict_parse := convert_by further_documents;
     dateparser_parse := sample_dateparser;
     raise_for_status := fun s => negb ((200 <=? s) && (s <=? 299))%Z;
     DEFAULT_LIMIT := 50 |}.

(** A page that is served with status 200 where the feed should be. *)
Definition maintenance_response : Response :=
  {| status_code := 200;
     headers := [ ("content-type", "text/plain") ];
     text := "Service under maintenance" |}.

(** * Properties *)

(** ** Results and validation *)

Lemma validate_optional_str_of_opt (o : option string) :
  validate_optional_str (py_of_opt o) = Ok o.
Proof. destruct o; reflexivity. Qed.

Lemma validate_optional_str_inv (v : pyval) (o : option string) :
  validate_optional_str v = Ok o -> py_of_opt o = v.
Proof.
  destruct v; simpl; intros H; inversion H; reflexivity.
Qed.

Lemma validate_text_or_none (v : pyval) :
  is_text_or_none v = true -> validate_optional_str v = Ok (text_of v).
Proof.
  destruct v; simpl; intros H; try discriminate; reflexivity.
Qed.

Lemma bind_ok_inv {A B : Type} (m : result A) (k : A -> result B) (b : B) :
  bind m k = Ok b -> exists a, m = Ok a /\ k a = Ok b.
Proof.
  destruct m as [a|e]; simpl; intros H; [exists a; auto | discriminate].
Qed.

Lemma list_comp_map {A B : Type} (f : A -> result B) (g : A -> B) (l : list A) :
  Forall (fun x => f x = Ok (g x)) l -> list_comp f l = Ok (map g l).
Proof.
  induction 1 as [|x l Hx _ IH]; simpl; [reflexivity|].
  rewrite Hx; simpl. rewrite IH; reflexivity.
Qed.

Lemma list_comp_inv {A B : Type} (f : A -> result B) (l : list A) (rs : list B) :
  list_comp f l = Ok rs -> Forall2 (fun x r => f x = Ok r) l rs.
Proof.
  revert rs; induction l as [|x l IH]; simpl; intros rs H.
  - inversion H; constructor.
  - apply bind_ok_inv in H as (y & Hy & H).
    apply bind_ok_inv in H as (ys & Hys & H).
    inversion H; subst; constructor; auto.
Qed.

Section Properties.

Context {L : Libs}.

(** ** One entry *)

(** What a successful [_parse_item] says about each field of its record. *)
Lemma parse_item_inv (e : pydict) (r : JobItem) :
  _parse_item (PDict e) = Ok r ->
  source r = "euraxess"
  /\ py_of_opt (source_ref r) = py_or (field e "guid") (field e "link")
  /\ py_of_opt (url r) = field e "link"
  /\ py_of_opt (title r) = field e "title"
  /\ py_of_opt (description_raw r) = py_or (field e "description") (PStr "")
  /\ posted_date r = posted_date_of (field e "pubDate")
  /\ raw r = Some e.
Proof.
  unfold _parse_item, JobItem_new; simpl. fold (field e "title") (field e "link")
    (field e "description") (field e "pubDate") (field e "guid").
  intros H.
  apply bind_ok_inv in H as (sr & Hsr & H).
  apply bind_ok_inv in H as (u & Hu & H).
  apply bind_ok_inv in H as (t & Ht & H).
  apply bind_ok_inv in H as (de & Hde & H).
  apply bind_ok_inv in H as (pd & Hpd & H).
  rewrite validate_optional_str_of_opt in Hpd.
  inversion Hpd; subst pd. inversion H; subst r; simpl.
  repeat split; auto using validate_optional_str_inv.
Qed.

(** Only a mapping has [get]: nothing else normalises. *)
Lemma parse_item_not_dict (v : pyval) :
  isinstance_dict v = false -> _parse_item v = Raise AttributeError.
Proof. destruct v; simpl; intros H; try discriminate; reflexivity. Qed.

(** Whether an entry normalises is decided by four of its fields. *)
Lemma parse_item_ok (e : pydict) :
  is_ok (_parse_item (PDict e)) = fields_validate e.
Proof.
  unfold _parse_item, JobItem_new, fields_validate; simpl.
  fold (field e "title") (field e "link") (field e "description")
    (field e "pubDate") (field e "guid").
  rewrite validate_optional_str_of_opt.
  destruct (validate_optional_str (py_or (field e "guid") (field e "link"))); simpl;
    [|reflexivity].
  destruct (validate_optional_str (field e "link")); simpl; [|reflexivity].
  destruct (validate_optional_str (field e "title")); simpl; [|reflexivity].
  destruct (validate_optional_str (py_or (field e "description") (PStr ""))); reflexivity.
Qed.

(** The code meets the specification's record on every plain entry. *)
Lemma parse_item_plain (e : pydict) :
  plain_entry e = true -> _parse_item (PDict e) = Ok (JobRecord_of e).
Proof.
  unfold plain_entry; simpl. rewrite !andb_true_iff.
  intros (Ht & Hl & Hd & Hg & _).
  unfold _parse_item, JobItem_new, JobRecord_of; simpl.
  fold (field e "title") (field e "link") (field e "description")
    (field e "pubDate") (field e "guid").
  rewrite validate_optional_str_of_opt.
  rewrite (validate_text_or_none _ Hl), (validate_text_or_none _ Ht).
  destruct (field e "guid") as [|g| |]; try discriminate;
    destruct (field e "description") as [|d| |]; try discriminate;
    unfold py_or; simpl;
    try (destruct (String.eqb g "")); try (destruct (String.eqb d "") eqn:Ed);
    simpl; rewrite ?(validate_text_or_none _ Hl); simpl;
    try reflexivity;
    apply String.eqb_eq in Ed; subst; reflexivity.
Qed.

(** ** Entries with a field replaced *)

Lemma dict_lookup_filter_other (k k' : string) (e : pydict) :
  k <> k' ->
  dict_lookup k' (filter (fun kv => negb (String.eqb k (fst kv))) e) = dict_lookup k' e.
Proof.
  intros Hne; induction e as [|[a w] e IH]; simpl; [reflexivity|].
  destruct (String.eqb k a) eqn:Eka; simpl.
  - apply String.eqb_eq in Eka; subst a.
    destruct (String.eqb k' k) eqn:Ek; [|exact IH].
    apply String.eqb_eq in Ek; congruence.
  - rewrite IH; reflexivity.
Qed.

Lemma field_dict_set_other (k k' : string) (v : pyval) (e : pydict) :
  k <> k' -> field (dict_set k v e) k' = field e k'.
Proof.
  intros Hne; unfold field, dict_set; simpl.
  destruct (String.eqb k' k) eqn:Ek.
  - apply String.eqb_eq in Ek; congruence.
  - rewrite dict_lookup_filter_other by assumption; reflexivity.
Qed.

Lemma field_dict_set_same (k : string) (v : pyval) (e : pydict) :
  field (dict_set k v e) k = v.
Proof. unfold field, dict_set; simpl. rewrite String.eqb_refl; reflexivity. Qed.

Lemma fields_validate_set_pubDate (v : pyval) (e : pydict) :
  fields_validate (dict_set "pubDate" v e) = fields_validate e.
Proof.
  unfold fields_validate.
  rewrite !field_dict_set_other by discriminate; reflexivity.
Qed.

(** ** The date string *)

Lemma digit_char (d : Z) :
  (0 <= d <= 9)%Z ->
  is_digit (ascii_of_nat (Z.to_nat (48 + d))) = true
  /\ digit_value (ascii_of_nat (Z.to_nat (48 + d))) = d.
Proof.
  intros Hd.
  assert (Hc : (d = 0 \/ d = 1 \/ d = 2 \/ d = 3 \/ d = 4 \/ d = 5 \/ d = 6
                \/ d = 7 \/ d = 8 \/ d = 9)%Z) by lia.
  repeat (destruct Hc as [Hc | Hc]; [subst d; split; reflexivity|]).
  subst d; split; reflexivity.
Qed.

Lemma digit_is_digit (n : Z) : is_digit (digit n) = true.
Proof.
  unfold digit. apply digit_char.
  pose proof (Z.mod_pos_bound n 10); lia.
Qed.

Lemma digit_value_digit (n : Z) : digit_value (digit n) = (n mod 10)%Z.
Proof.
  unfold digit. apply digit_char.
  pose proof (Z.mod_pos_bound n 10); lia.
Qed.

(** [isoformat] writes ten characters, [dddd-dd-dd]. *)
Lemma isoformat_is_iso_date (d : date) : is_iso_date (date_isoformat d) = true.
Proof.
  unfold is_iso_date, date_isoformat, zfill4, zfill2; simpl.
  rewrite !digit_is_digit; reflexivity.
Qed.

Lemma decimal2 (n : Z) :
  (0 <= n <= 99)%Z -> (10 * (n / 10 mod 10) + n mod 10 = n)%Z.
Proof.
  intros Hn.
  assert (H1 : (n / 10 mod 10 = n / 10)%Z).
  { apply Z.mod_small; split; [apply Z.div_pos; lia | apply Z.div_lt_upper_bound; lia]. }
  rewrite H1. pose proof (Z.div_mod n 10 ltac:(lia)). lia.
Qed.

Lemma decimal4 (n : Z) :
  (0 <= n <= 9999)%Z ->
  (1000 * (n / 1000 mod 10) + 100 * (n / 100 mod 10) + 10 * (n / 10 mod 10) + n mod 10 = n)%Z.
Proof.
  intros Hn.
  assert (H1 : (n / 1000 mod 10 = n / 1000)%Z).
  { apply Z.mod_small; split; [apply Z.div_pos; lia | apply Z.div_lt_upper_bound; lia]. }
  assert (H2 : (n / 100 = 10 * (n / 1000) + n / 100 mod 10)%Z).
  { replace 1000%Z with (100 * 10)%Z by lia.
    rewrite <- Z.div_div by lia. apply Z.div_mod; lia. }
  assert (H3 : (n / 10 = 10 * (n / 100) + n / 10 mod 10)%Z).
  { replace 100%Z with (10 * 10)%Z by lia.
    rewrite <- Z.div_div by lia. apply Z.div_mod; lia. }
  rewrite H1. pose proof (Z.div_mod n 10 ltac:(lia)). lia.
Qed.

(** The string denotes the date it was written from. *)
Lemma isoformat_decode (d : date) : valid_date d -> iso_decode (date_isoformat d) = Some d.
Proof.
  intros (Hy & Hm & Hd).
  unfold iso_decode. rewrite isoformat_is_iso_date.
  destruct d as [y m dd]; cbn [year month day] in *.
  unfold date_isoformat, zfill4, zfill2; cbn [year month day].
  cbn [String.append list_ascii_of_string].
  rewrite !digit_value_digit.
  rewrite decimal4, !decimal2 by lia. reflexivity.
Qed.

(** ** Claims about one entry *)


(** C5. Date policy: a record made from an entry whose pubDate is present
    and accepted by the date parser has as [posted_date] the ISO-8601 date
    of the timestamp the parser returned: its year in four digits, its month
    and its day in two, with hyphens, ten characters in which the time of
    day plays no part and which denote that year, month and day; with
    pubDate absent or refused by the parser [posted_date] is absent; and an
    entry that normalises still does with any other value under pubDate, so
    no date makes normalisation raise. *)
Theorem posted_date_policy (e : pydict) (r : JobItem) :
  _parse_item (PDict e) = Ok r ->
  (forall dt,
      truthy (field e "pubDate") = true ->
      dateparser_parse (field e "pubDate") = Some dt ->
      exists s,
        posted_date r = Some s
        /\ s = zfill4 (dt_year dt) ++ "-" ++ zfill2 (dt_month dt)
               ++ "-" ++ zfill2 (dt_day dt)
        /\ is_iso_date s = true
        /\ (valid_date {| year := dt_year dt; month := dt_month dt; day := dt_day dt |} ->
            iso_decode s
            = Some {| year := dt_year dt; month := dt_month dt; day := dt_day dt |}))
  /\ (truthy (field e "pubDate") = false \/ dateparser_parse (field e "pubDate") = None ->
      posted_date r = None)
  /\ (forall v, is_ok (_parse_item (PDict (dict_set "pubDate" v e))) = true).
Proof.
  intros H.
  assert (Hok : fields_validate e = true)
    by (rewrite <- parse_item_ok, H; reflexivity).
  apply parse_item_inv in H as (_ & _ & _ & _ & _ & Hpd & _).
  unfold posted_date_of in Hpd.
  split; [|split].
  - intros dt Ht Hdt. rewrite Hpd, Ht, Hdt.
    exists (date_isoformat (datetime_date dt)).
    split; [reflexivity|].
    split; [reflexivity|].
    split; [apply isoformat_is_iso_date|].
    exact (isoformat_decode (datetime_date dt)).
  - intros [Hf | Hn]; rewrite Hpd.
    + rewrite Hf; reflexivity.
    + rewrite Hn; destruct (truthy _); reflexivity.
  - intros v. rewrite parse_item_ok, fields_validate_set_pubDate; exact Hok.
Qed.

(** C6, as the code has it. An entry whose title, link, description and guid
    are each missing or plain text yields the record of the specification,
    whatever stands under pubDate: a missing title, link or date is absent in
    the record, a missing description gives the empty string, and a missing
    guid leaves the link as identifier. *)
Theorem missing_fields_degrade (e : pydict) :
  plain_entry e = true ->
  exists r,
    _parse_item (PDict e) = Ok r
    /\ r = JobRecord_of e
    /\ (field e "title" = PNone -> title r = None)
    /\ (field e "link" = PNone -> url r = None)
    /\ (field e "description" = PNone -> description_raw r = Some "")
    /\ (field e "pubDate" = PNone -> posted_date r = None)
    /\ (field e "guid" = PNone -> source_ref r = url r).
Proof.
  intros Hp. exists (JobRecord_of e).
  split; [apply parse_item_plain; exact Hp|].
  split; [reflexivity|].
  unfold JobRecord_of; simpl.
  repeat split; intros ->; reflexivity.
Qed.

(** ** The items of a feed *)

Lemma feed_items_channel (data : pyval) (ch : pydict) :
  feed_channel data = Some ch ->
  feed_items data =
    match dict_lookup "item" ch with
    | None => Ok []
    | Some (PDict e) => Ok [PDict e]
    | Some v => py_iter v
    end.
Proof.
  unfold feed_channel, feed_items.
  destruct data as [| |root|]; try discriminate; simpl.
  destruct (dict_lookup "rss" root) as [[| |rss|]|]; try discriminate; simpl.
  destruct (dict_lookup "channel" rss) as [[| |c|]|]; try discriminate; simpl.
  intros H; inversion H; subst c.
  destruct (dict_lookup "item" ch) as [[| | |]|]; reflexivity.
Qed.

(** A channel whose items are all mappings hands exactly them, in document
    order, to the comprehension. *)
Lemma feed_items_entries (data : pyval) (ch : pydict) (es : list pydict) :
  feed_channel data = Some ch ->
  channel_items ch = map PDict es ->
  feed_items data = Ok (map PDict es).
Proof.
  intros Hch Hit. rewrite (feed_items_channel _ _ Hch).
  unfold channel_items in Hit.
  destruct (dict_lookup "item" ch) as [[|s|e|l]|].
  - destruct es; discriminate.
  - destruct es; discriminate.
  - rewrite Hit; reflexivity.
  - simpl; rewrite Hit; reflexivity.
  - destruct es; [reflexivity | discriminate].
Qed.

Lemma feed_items_tolerated (data : pyval) :
  tolerated data = true ->
  exists its, feed_items data = Ok its /\ forallb plain_item its = true.
Proof.
  unfold tolerated, feed_items.
  destruct data as [| |root|]; try discriminate; simpl.
  destruct (dict_lookup "rss" root) as [[| |rss|]|]; try discriminate; simpl.
  - destruct (dict_lookup "channel" rss) as [[| |ch|]|]; try discriminate; simpl.
    + unfold channel_items.
      destruct (dict_lookup "item" ch) as [[|s|e|l]|]; simpl; try discriminate; intros H.
      * exists [PDict e]; auto.
      * exists l; auto.
      * exists []; auto.
    + intros _; exists []; auto.
  - intros _; exists []; auto.
Qed.

Lemma list_comp_plain (its : list pyval) :
  forallb plain_item its = true ->
  exists rs, list_comp _parse_item its = Ok rs.
Proof.
  induction its as [|it its IH]; simpl; [intros _; exists []; reflexivity|].
  rewrite andb_true_iff; intros (Hit & Hits).
  destruct (IH Hits) as (rs & Hrs).
  destruct it as [| |e|]; try discriminate.
  exists (JobRecord_of e :: rs).
  simpl in Hit. rewrite (parse_item_plain _ Hit); simpl.
  rewrite Hrs; reflexivity.
Qed.

(** The date parser is the only library [_parse_item] calls. *)
Lemma parse_item_ext (L' : Libs) (it : pyval) :
  (forall v, @dateparser_parse L' v = @dateparser_parse L v) ->
  @_parse_item L' it = @_parse_item L it.
Proof.
  intros Hdp. unfold _parse_item, posted_date_of.
  destruct it as [| |e|]; simpl; try reflexivity.
  rewrite Hdp; reflexivity.
Qed.

(** No step after the XML conversion raises an error of the conversion. *)
Lemma validate_optional_str_error (v : pyval) (e : exn) :
  validate_optional_str v = Raise e -> e = ValidationError.
Proof. destruct v; simpl; intros H; inversion H; reflexivity. Qed.

Lemma parse_item_own_error (it : pyval) (e : exn) :
  _parse_item it = Raise e -> own_error e = true.
Proof.
  destruct it as [| |d|]; simpl; try (intros H; inversion H; reflexivity).
  unfold _parse_item, JobItem_new; simpl.
  rewrite validate_optional_str_of_opt.
  repeat match goal with
         | |- context [validate_optional_str ?v] =>
             let E := fresh "E" in
             destruct (validate_optional_str v) eqn:E; simpl;
             [| apply validate_optional_str_error in E; subst;
                intros H; inversion H; reflexivity ]
         end.
  discriminate.
Qed.

Lemma list_comp_own_error (its : list pyval) (e : exn) :
  list_comp _parse_item its = Raise e -> own_error e = true.
Proof.
  induction its as [|it its IH]; simpl; [discriminate|].
  pose proof (parse_item_own_error it) as Hit.
  destruct (_parse_item it) as [r|e']; simpl.
  - destruct (list_comp _parse_item its) as [rs|e'']; simpl; [discriminate|].
    intros H; inversion H; subst. apply IH; reflexivity.
  - intros H; inversion H; subst. apply Hit; reflexivity.
Qed.

Lemma feed_items_own_error (data : pyval) (e : exn) :
  feed_items data = Raise e -> own_error e = true.
Proof.
  unfold feed_items.
  destruct data as [| |root|]; simpl; try (intros H; inversion H; reflexivity).
  destruct (dict_lookup "rss" root) as [[| |rss|]|]; simpl;
    try (intros H; inversion H; reflexivity).
  - destruct (dict_lookup "channel" rss) as [[| |ch|]|]; simpl;
      try (intros H; inversion H; reflexivity).
    destruct (dict_lookup "item" ch) as [[| | |]|]; simpl;
      intros H; inversion H; reflexivity.
Qed.

(** ** Claims about a feed *)

(** C2, as the code has it. For a feed whose channel holds N items (N >= 0)
    that each convert to a mapping with title, link, description and guid
    missing or plain text, [parse] returns exactly N records, the record of
    each item in the order of the items. *)
Theorem parse_count_order (rss_text : string) (data : pyval) (ch : pydict)
  (es : list pydict) :
  xmltodict_parse rss_text = Ok data ->
  feed_channel data = Some ch ->
  channel_items ch = map PDict es ->
  forallb plain_entry es = true ->
  exists rs,
    parse_rss_text_to_items__wrapped rss_text = Ok rs
    /\ List.length rs = List.length (channel_items ch)
    /\ Forall2 (fun it r => _parse_item it = Ok r) (channel_items ch) rs
    /\ rs = map JobRecord_of es.
Proof.
  intros Hx Hch Hit Hplain.
  assert (Hcomp : list_comp _parse_item (map PDict es) = Ok (map JobRecord_of es)).
  { rewrite <- (map_map PDict (fun it => match it with
                                          | PDict e => JobRecord_of e
                                          | _ => JobRecord_of []
                                          end)).
    apply list_comp_map. apply Forall_forall.
    intros it Hin. apply in_map_iff in Hin as (e & <- & Hin).
    apply parse_item_plain.
    rewrite forallb_forall in Hplain; auto. }
  exists (map JobRecord_of es).
  assert (Hw : parse_rss_text_to_items__wrapped rss_text = Ok (map JobRecord_of es)).
  { unfold parse_rss_text_to_items__wrapped. rewrite Hx; simpl.
    rewrite (feed_items_entries _ _ _ Hch Hit); simpl. exact Hcomp. }
  split; [exact Hw|].
  split; [rewrite Hit, !length_map; reflexivity|].
  split; [|reflexivity].
  rewrite Hit. apply list_comp_inv; exact Hcomp.
Qed.

(** C3, as the code has it. For an item that converts to a mapping, a feed
    whose only item arrives collapsed to the mapping itself and a feed whose
    only item arrives as a one-element list of that mapping parse to the
    same result: the one-element sequence of the item's record when the item
    normalises, as it does when its title, link, description and guid are
    missing or plain text, and the item's error otherwise. The second feed
    may come from another XML conversion [L'], one that does not collapse. *)
Theorem scalar_list_equivalence (L' : Libs) (t t' : string) (data data' : pyval)
  (ch ch' : pydict) (e : pydict) :
  (forall v, @dateparser_parse L' v = @dateparser_parse L v) ->
  @xmltodict_parse L t = Ok data ->
  feed_channel data = Some ch ->
  dict_lookup "item" ch = Some (PDict e) ->
  @xmltodict_parse L' t' = Ok data' ->
  feed_channel data' = Some ch' ->
  dict_lookup "item" ch' = Some (PList [PDict e]) ->
  @parse_rss_text_to_items__wrapped L t = @parse_rss_text_to_items__wrapped L' t'
  /\ @parse_rss_text_to_items__wrapped L t = (r <- @_parse_item L (PDict e) ;; Ok [r])
  /\ (plain_entry e = true ->
      @parse_rss_text_to_items__wrapped L t = Ok [@JobRecord_of L e]
      /\ @parse_rss_text_to_items__wrapped L' t' = Ok [@JobRecord_of L e]).
Proof.
  intros Hdp Hx Hch Hit Hx' Hch' Hit'.
  unfold parse_rss_text_to_items__wrapped.
  rewrite Hx, Hx'; simpl.
  rewrite (feed_items_channel _ _ Hch), (@feed_items_channel data' ch' Hch').
  rewrite Hit, Hit'; simpl.
  rewrite (parse_item_ext L' _ Hdp).
  split; [|split].
  - destruct (_parse_item (PDict e)); reflexivity.
  - destruct (_parse_item (PDict e)); reflexivity.
  - intros Hp. rewrite (parse_item_plain _ Hp); simpl. split; reflexivity.
Qed.

(** C7, as the code has it. [parse] raises the error of the XML conversion
    whenever the conversion raises, [ExpatError] on a text that is not
    well-formed XML and [ValueError] on one the conversion refuses, and an
    error of these kinds comes from the conversion alone: every later step
    raises [AttributeError], [TypeError] or [ValidationError]. On a text the
    conversion accepts, [parse] returns whenever the rss and channel
    elements are mappings (or missing) and every item is a mapping with
    title, link, description and guid missing or plain text. *)
Theorem parse_failure_policy (rss_text : string) :
  (forall e,
      xmltodict_parse rss_text = Raise e ->
      parse_rss_text_to_items__wrapped rss_text = Raise e)
  /\ (forall e,
        parse_rss_text_to_items__wrapped rss_text = Raise e ->
        own_error e = false ->
        xmltodict_parse rss_text = Raise e)
  /\ (forall data e,
        xmltodict_parse rss_text = Ok data ->
        parse_rss_text_to_items__wrapped rss_text = Raise e ->
        e = AttributeError \/ e = TypeError \/ e = ValidationError)
  /\ (forall data,
        xmltodict_parse rss_text = Ok data ->
        tolerated data = true ->
        is_ok (parse_rss_text_to_items__wrapped rss_text) = true).
Proof.
  assert (Hown : forall data e,
             xmltodict_parse rss_text = Ok data ->
             parse_rss_text_to_items__wrapped rss_text = Raise e ->
             own_error e = true).
  { unfold parse_rss_text_to_items__wrapped. intros data e ->; simpl.
    pose proof (feed_items_own_error data) as Hf.
    destruct (feed_items data) as [its|e']; simpl.
    - apply list_comp_own_error.
    - intros H; inversion H; subst. apply Hf; reflexivity. }
  split; [|split; [|split]].
  - unfold parse_rss_text_to_items__wrapped. intros e ->; reflexivity.
  - intros e Hw He.
    destruct (xmltodict_parse rss_text) as [data|e'] eqn:Hx.
    + rewrite (Hown data e eq_refl Hw) in He; discriminate.
    + unfold parse_rss_text_to_items__wrapped in Hw. rewrite Hx in Hw.
      simpl in Hw. inversion Hw; reflexivity.
  - intros data e Hx Hw. specialize (Hown data e Hx Hw).
    destruct e; try discriminate; auto.
  - unfold parse_rss_text_to_items__wrapped. intros data -> Htol; simpl.
    destruct (feed_items_tolerated _ Htol) as (its & -> & Hplain); simpl.
    destruct (list_comp_plain _ Hplain) as (rs & ->); reflexivity.
Qed.

(** C10. Every record [parse] returns has the constant ["euraxess"] as
    [source] and, as [raw], the very entry of the feed that [_parse_item]
    made it from, position by position; entries are values that
    [_parse_item] only reads. *)
Theorem record_invariant (rss_text : string) (rs : list JobItem) :
  parse_rss_text_to_items__wrapped rss_text = Ok rs ->
  exists data its,
    xmltodict_parse rss_text = Ok data
    /\ feed_items data = Ok its
    /\ Forall2 (fun it r =>
                  source r = "euraxess"
                  /\ option_map PDict (raw r) = Some it
                  /\ _parse_item it = Ok r) its rs.
Proof.
  unfold parse_rss_text_to_items__wrapped; intros H.
  apply bind_ok_inv in H as (data & Hx & H).
  apply bind_ok_inv in H as (its & Hits & H).
  exists data, its.
  split; [exact Hx|].
  split; [exact Hits|].
  apply list_comp_inv in H.
  clear Hits.
  induction H as [|it r its' rs' Hr _ IH]; [constructor|].
  constructor; [|exact IH].
  destruct it as [| |e|]; try discriminate.
  destruct (parse_item_inv _ _ Hr) as (Hs & _ & _ & _ & _ & _ & Hraw).
  rewrite Hraw; auto.
Qed.

(** ** The memoisation table *)

Lemma table_lookup_remove_other (t k : string) (c : lru_table) :
  t <> k -> table_lookup k (table_remove t c) = table_lookup k c.
Proof.
  intros Hne; induction c as [|[a w] c IH]; simpl; [reflexivity|].
  destruct (String.eqb t a) eqn:Eta; simpl.
  - apply String.eqb_eq in Eta; subst a.
    destruct (String.eqb k t) eqn:Ek; [|exact IH].
    apply String.eqb_eq in Ek; congruence.
  - rewrite IH; reflexivity.
Qed.

Lemma table_lookup_firstn (n : nat) (k : string) (c : lru_table) (v : list JobItem) :
  table_lookup k (firstn n c) = Some v -> table_lookup k c = Some v.
Proof.
  revert c; induction n as [|n IH]; intros [|[a w] c]; simpl; try discriminate.
  destruct (String.eqb k a); [auto | apply IH].
Qed.


Lemma table_sound_hit (t : string) (v : list JobItem) (c : lru_table) :
  table_sound c -> table_lookup t c = Some v ->
  table_sound ((t, v) :: table_remove t c).
Proof.
  intros Hs Ht k w; simpl.
  destruct (String.eqb k t) eqn:Ek.
  - apply String.eqb_eq in Ek; subst k. intros H; inversion H; subst w. auto.
  - apply String.eqb_neq in Ek.
    rewrite table_lookup_remove_other by congruence. apply Hs.
Qed.

Lemma table_sound_miss (t : string) (v : list JobItem) (c : lru_table) :
  table_sound c -> parse_rss_text_to_items__wrapped t = Ok v ->
  table_sound (firstn maxsize ((t, v) :: c)).
Proof.
  intros Hs Hv k w H. apply table_lookup_firstn in H. simpl in H.
  destruct (String.eqb k t) eqn:Ek.
  - apply String.eqb_eq in Ek; subst k. inversion H; subst w. exact Hv.
  - apply Hs; exact H.
Qed.

(** One call: on a sound table the decorated function returns what the
    function returns, and leaves a sound table. *)
Lemma parse_cached_spec (t : string) (c : lru_table) :
  table_sound c ->
  fst (parse_rss_text_to_items t c) = parse_rss_text_to_items__wrapped t
  /\ table_sound (snd (parse_rss_text_to_items t c)).
Proof.
  intros Hs. unfold parse_rss_text_to_items.
  destruct (table_lookup t c) as [v|] eqn:Ht; simpl.
  - split; [symmetry; auto | apply table_sound_hit; assumption].
  - destruct (parse_rss_text_to_items__wrapped t) as [v|e] eqn:Hw; simpl.
    + split; [reflexivity | apply table_sound_miss; assumption].
    + split; [reflexivity | assumption].
Qed.


Lemma parse_calls_spec (texts : list string) (c : lru_table) :
  table_sound c ->
  fst (parse_calls texts c) = map parse_rss_text_to_items__wrapped texts
  /\ table_sound (snd (parse_calls texts c)).
Proof.
  revert c; induction texts as [|t ts IH]; intros c Hs; simpl; [auto|].
  destruct (parse_cached_spec t c Hs) as (Hr & Hs1).
  destruct (parse_rss_text_to_items t c) as [r c1]; simpl in *.
  destruct (IH c1 Hs1) as (Hrs & Hs2).
  destruct (parse_calls ts c1) as [rs c2]; simpl in *.
  subst; auto.
Qed.


Lemma table_sound_nil : table_sound [].
Proof. intros k v; discriminate. Qed.

(** The parsers are the only libraries [parse] calls. *)
Lemma wrapped_ext (L' : Libs) (t : string) :
  same_parsers L L' ->
  @parse_rss_text_to_items__wrapped L' t = @parse_rss_text_to_items__wrapped L t.
Proof.
  intros (Hx & Hdp). unfold parse_rss_text_to_items__wrapped.
  rewrite Hx. destruct (xmltodict_parse t) as [data|e]; simpl; [|reflexivity].
  destruct (feed_items data) as [its|e]; simpl; [|reflexivity].
  induction its as [|it its IH]; simpl; [reflexivity|].
  rewrite (parse_item_ext L' it Hdp), IH. reflexivity.
Qed.

Lemma parse_cached_ext (L' : Libs) (t : string) (c : lru_table) :
  same_parsers L L' ->
  @parse_rss_text_to_items L' t c = @parse_rss_text_to_items L t c.
Proof.
  intros H. unfold parse_rss_text_to_items.
  rewrite (wrapped_ext L' t H). reflexivity.
Qed.



(** ** The handlers *)



(** C1, as the code has it. A response on which [raise_for_status] does not
    raise, as on every 2xx status, is passed through: its status code, its
    header mapping and its text are returned unmodified with the URL. A
    response with a 4xx or 5xx status is answered with 502, like a failure
    of the transport. *)
Theorem get_job_passthrough (u : string) (r : Response) :
  status_contract L ->
  (raise_for_status (status_code r) = false ->
   get_job (Some u) (Received r)
   = Response200 {| job_url := u; job_status_code := status_code r;
                    job_headers := headers r; raw_html := text r |})
  /\ ((200 <= status_code r <= 299)%Z ->
      get_job (Some u) (Received r)
      = Response200 {| job_url := u; job_status_code := status_code r;
                       job_headers := headers r; raw_html := text r |})
  /\ ((400 <= status_code r <= 599)%Z ->
      get_job (Some u) (Received r) = HTTPException 502 "Failed to fetch job URL").
Proof.
  intros (Herr & Hok). unfold get_job.
  split; [|split].
  - intros ->; reflexivity.
  - intros Hs. rewrite (Hok _ Hs); reflexivity.
  - intros Hs. rewrite (Herr _ Hs); reflexivity.
Qed.

End Properties.

(** * The claims on the sample documents *)

(** ** Where the code departs from a claim *)

(** C1. A page that answers 404 is received, yet [get_job] answers 502 with
    its fixed message instead of forwarding the status, headers and body. *)
Lemma get_job_rejects_404 :
  get_job (L := sample_libs) (Some "https://euraxess.example/jobs/404")
    (Received page_not_found)
  = HTTPException 502 "Failed to fetch job URL".
Proof. reflexivity. Qed.

(** C2. A feed with one item whose guid carries the [isPermaLink] attribute:
    the guid converts to a mapping, the record's constructor refuses it, and
    [parse] raises instead of returning one record. *)
Lemma parse_permalink_feed_raises :
  xmltodict_parse (Libs := sample_libs) feed_permalink
  = Ok (rss_document [ ("item", PDict entry_permalink) ])
  /\ parse_rss_text_to_items__wrapped (L := sample_libs) feed_permalink
     = Raise ValidationError.
Proof. split; reflexivity. Qed.

(** C3. A single empty item element: collapsed it is [None], which the
    comprehension cannot run over, kept in a list it is a [None] without
    [get]; neither form yields a record, and the two errors differ. *)
Lemma scalar_list_differ_on_childless_item :
  parse_rss_text_to_items__wrapped (L := collapsing_libs) feed_childless
  = Raise TypeError
  /\ parse_rss_text_to_items__wrapped (L := keeping_libs) feed_childless
     = Raise AttributeError.
Proof. split; reflexivity. Qed.


(** C6. An item whose description holds a child element yields no record. *)
Lemma parse_item_markup_raises :
  _parse_item (L := sample_libs) (PDict entry_markup) = Raise ValidationError.
Proof. reflexivity. Qed.

(** C7. An empty rss element is XML, and [parse] raises on it. *)
Lemma parse_empty_rss_raises :
  xmltodict_parse (Libs := sample_libs) feed_empty_rss = Ok (PDict [ ("rss", PNone) ])
  /\ parse_rss_text_to_items__wrapped (L := sample_libs) feed_empty_rss
     = Raise AttributeError.
Proof. split; reflexivity. Qed.

(** ** The theorems at work *)

Lemma sample_status_contract : status_contract sample_libs.
Proof.
  split; intros s Hs; simpl.
  - apply negb_true_iff, andb_false_iff. right. apply Z.leb_gt. lia.
  - apply negb_false_iff, andb_true_iff. split; apply Z.leb_le; lia.
Defined.

Lemma get_job_passthrough_witness :
  status_contract sample_libs
  /\ get_job (L := sample_libs) (Some "https://euraxess.example/jobs/1") (Received page_ok)
     = Response200
         {| job_url := "https://euraxess.example/jobs/1";
            job_status_code := 200;
            job_headers := [ ("content-type", "text/html; charset=utf-8") ];
            raw_html := "<html><body>Postdoc in Formal Methods</body></html>" |}.
Proof.
  split; [exact sample_status_contract|].
  destruct (get_job_passthrough (L := sample_libs) "https://euraxess.example/jobs/1"
              page_ok sample_status_contract) as (_ & H2xx & _).
  apply H2xx. simpl. lia.
Defined.

Lemma parse_count_order_witness :
  forallb plain_entry [entry_postdoc; entry_phd; entry_bare] = true
  /\ parse_rss_text_to_items__wrapped (L := sample_libs) feed_none = Ok []
  /\ exists rs,
       parse_rss_text_to_items__wrapped (L := sample_libs) feed_three = Ok rs
       /\ List.length rs = 3
       /\ map title rs = [ Some "Postdoc in Formal Methods"; Some "PhD student";
                           Some "Lab technician" ].
Proof.
  split; [reflexivity|].
  split.
  { destruct (parse_count_order (L := sample_libs) feed_none (rss_document [])
                [ ("title", PStr "EURAXESS") ] [] eq_refl eq_refl eq_refl eq_refl)
      as (rs & Hrs & _ & _ & Heq).
    rewrite Hrs, Heq; reflexivity. }
  destruct (parse_count_order (L := sample_libs) feed_three
              (rss_document [ ("item", PList [PDict entry_postdoc; PDict entry_phd;
                                               PDict entry_bare]) ])
              [ ("title", PStr "EURAXESS");
                ("item", PList [PDict entry_postdoc; PDict entry_phd; PDict entry_bare]) ]
              [entry_postdoc; entry_phd; entry_bare]
              eq_refl eq_refl eq_refl eq_refl) as (rs & Hrs & Hlen & _ & Heq).
  exists rs. split; [exact Hrs|]. split; [exact Hlen|].
  rewrite Heq; reflexivity.
Defined.

Lemma scalar_list_equivalence_witness :
  parse_rss_text_to_items__wrapped (L := sample_libs) feed_one
  = parse_rss_text_to_items__wrapped (L := listing_libs) feed_one
  /\ parse_rss_text_to_items__wrapped (L := sample_libs) feed_one
     = Ok [JobRecord_of (L := sample_libs) entry_bare]
  /\ parse_rss_text_to_items__wrapped (L := listing_libs) feed_one
     = Ok [JobRecord_of (L := sample_libs) entry_bare].
Proof.
  destruct (scalar_list_equivalence (L := sample_libs) listing_libs feed_one feed_one
              (rss_document [ ("item", PDict entry_bare) ])
              (rss_document [ ("item", PList [PDict entry_bare]) ])
              [ ("title", PStr "EURAXESS"); ("item", PDict entry_bare) ]
              [ ("title", PStr "EURAXESS"); ("item", PList [PDict entry_bare]) ]
              entry_bare
              (fun _ => eq_refl) eq_refl eq_refl eq_refl eq_refl eq_refl eq_refl)
    as (Hsame & _ & Hplain).
  destruct (Hplain eq_refl) as (Hone & Hlisted).
  split; [exact Hsame|]. split; [exact Hone | exact Hlisted].
Defined.


Lemma posted_date_policy_witness :
  _parse_item (L := sample_libs) (PDict entry_postdoc)
  = Ok (JobRecord_of (L := sample_libs) entry_postdoc)
  /\ posted_date (JobRecord_of (L := sample_libs) entry_postdoc) = Some "2024-01-01"
  /\ iso_decode "2024-01-01" = Some {| year := 2024; month := 1; day := 1 |}
  /\ is_ok (_parse_item (L := sample_libs)
              (PDict (dict_set "pubDate" (PStr "31/02/2024 25:61") entry_postdoc))) = true.
Proof.
  split; [reflexivity|].
  destruct (posted_date_policy (L := sample_libs) entry_postdoc _ eq_refl)
    as (Hdate & _ & Hany).
  destruct (Hdate {| dt_year := 2024; dt_month := 1; dt_day := 1;
                     hour := 10; minute := 0; second := 0 |} eq_refl eq_refl)
    as (s & Hs & Heq & _ & Hdec).
  subst s.
  split; [exact Hs|].
  split; [|apply Hany].
  apply Hdec. unfold valid_date; simpl. lia.
Defined.

Lemma missing_fields_degrade_witness :
  plain_entry entry_bare = true
  /\ _parse_item (L := sample_libs) (PDict entry_bare)
     = Ok {| source := "euraxess"; source_ref := None; url := None;
             title := Some "Lab technician"; description_raw := Some "";
             posted_date := None; raw := Some entry_bare |}.
Proof.
  split; [reflexivity|].
  destruct (missing_fields_degrade (L := sample_libs) entry_bare eq_refl)
    as (r & Hr & Heq & _).
  rewrite Hr, Heq; reflexivity.
Defined.

Lemma parse_failure_policy_witness :
  parse_rss_text_to_items__wrapped (L := strict_libs) "not a feed" = Raise ExpatError
  /\ parse_rss_text_to_items__wrapped (L := strict_libs) feed_entity = Raise ValueError
  /\ is_ok (parse_rss_text_to_items__wrapped (L := strict_libs) feed_none) = true.
Proof.
  destruct (parse_failure_policy (L := strict_libs) "not a feed") as (Hbad & _).
  destruct (parse_failure_policy (L := strict_libs) feed_entity) as (Hent & _).
  destruct (parse_failure_policy (L := strict_libs) feed_none) as (_ & _ & _ & Hgood).
  split; [exact (Hbad _ eq_refl)|].
  split; [exact (Hent _ eq_refl) | exact (Hgood _ eq_refl eq_refl)].
Defined.



Lemma record_invariant_witness :
  parse_rss_text_to_items__wrapped (L := sample_libs) feed_one
  = Ok [JobRecord_of (L := sample_libs) entry_bare]
  /\ exists data its,
       xmltodict_parse (Libs := sample_libs) feed_one = Ok data
       /\ feed_items data = Ok its
       /\ Forall2 (fun it r =>
                     source r = "euraxess"
                     /\ option_map PDict (raw r) = Some it
                     /\ _parse_item (L := sample_libs) it = Ok r)
            its [JobRecord_of (L := sample_libs) entry_bare].
Proof.
  split; [reflexivity|].
  exact (record_invariant (L := sample_libs) feed_one _ eq_refl).
Defined.

(** * Further properties of the code *)

Section Further.

Context {L : Libs}.

(** ** [_parse_item] *)

Lemma JobItem_new_raw (a b c d f g : pyval) (e e' : pydict) :
  JobItem_new a b c d f g (PDict e')
  = match JobItem_new a b c d f g (PDict e) with
    | Ok r => Ok (with_raw r e')
    | Raise x => Raise x
    end.
Proof.
  unfold JobItem_new.
  destruct (validate_str a); simpl; [|reflexivity].
  destruct (validate_optional_str b); simpl; [|reflexivity].
  destruct (validate_optional_str c); simpl; [|reflexivity].
  destruct (validate_optional_str d); simpl; [|reflexivity].
  destruct (validate_optional_str f); simpl; [|reflexivity].
  destruct (validate_optional_str g); reflexivity.
Qed.

(** X1. [_parse_item] on a mapping is decided by four fields: it returns the
    record of the entry when title and link are text or [None] and
    description and guid are text wherever truthy, and raises
    [ValidationError], never another error, otherwise; on a value that is no
    mapping it raises [AttributeError]. *)
Theorem parse_item_characterised :
  (forall e,
      _parse_item (PDict e)
      = if accepted e then Ok (JobRecord_of e) else Raise ValidationError)
  /\ (forall v, isinstance_dict v = false -> _parse_item v = Raise AttributeError).
Proof.
  split; [|exact parse_item_not_dict].
  intros e.
  unfold accepted, _parse_item, JobItem_new, JobRecord_of; simpl.
  fold (field e "title") (field e "link") (field e "description")
    (field e "pubDate") (field e "guid").
  rewrite validate_optional_str_of_opt.
  destruct (field e "title") as [|t|dt|lt];
    destruct (field e "link") as [|l|dl|ll];
    destruct (field e "guid") as [|g|[|? ?]|[|? ?]];
    destruct (field e "description") as [|d|[|? ?]|[|? ?]];
    unfold py_or; simpl;
    try (destruct (String.eqb g "")); try (destruct (String.eqb d "") eqn:Ed);
    simpl; try reflexivity;
    apply String.eqb_eq in Ed; subst; reflexivity.
Qed.

(** X2. Every record [_parse_item] returns has a string as
    [description_raw]; it has a [source_ref] whenever it has a [url]; its
    [source_ref] is its [url] when the entry's guid is missing or empty; and
    its [posted_date], when there is one, has the shape [dddd-dd-dd]. *)
Theorem record_well_formed (e : pydict) (r : JobItem) :
  _parse_item (PDict e) = Ok r ->
  description_raw r <> None
  /\ (source_ref r = None -> url r = None)
  /\ (truthy (field e "guid") = false -> source_ref r = url r)
  /\ (forall s, posted_date r = Some s -> is_iso_date s = true).
Proof.
  intros H.
  apply parse_item_inv in H as (_ & Href & Hurl & _ & Hdesc & Hpd & _).
  unfold py_or in *.
  split; [|split; [|split]].
  - intros Hn. rewrite Hn in Hdesc; simpl in Hdesc.
    destruct (truthy (field e "description")) eqn:Ht; [|discriminate].
    rewrite <- Hdesc in Ht; discriminate.
  - intros Hn. rewrite Hn in Href; simpl in Href.
    destruct (truthy (field e "guid")) eqn:Ht.
    + rewrite <- Href in Ht; discriminate.
    + rewrite <- Href in Hurl. destruct (url r); [discriminate | reflexivity].
  - intros Hg. rewrite Hg, <- Hurl in Href.
    destruct (source_ref r), (url r); simpl in Href; congruence.
  - intros s Hs. rewrite Hpd in Hs. unfold posted_date_of in Hs.
    destruct (truthy (field e "pubDate")); [|discriminate].
    destruct (dateparser_parse (field e "pubDate")); [|discriminate].
    inversion Hs; apply isoformat_is_iso_date.
Qed.

(** X3. [_parse_item] reads five keys and nothing else: two entries that
    agree on title, link, description, pubDate and guid give the same
    outcome, the records differing in [raw] alone. *)
Theorem parse_item_reads_promoted_keys (e e' : pydict) :
  (forall k, In k promoted_keys -> field e' k = field e k) ->
  _parse_item (PDict e')
  = match _parse_item (PDict e) with
    | Ok r => Ok (with_raw r e')
    | Raise x => Raise x
    end.
Proof.
  intros Hk. unfold _parse_item; simpl.
  fold (field e "title") (field e "link") (field e "description")
    (field e "pubDate") (field e "guid").
  fold (field e' "title") (field e' "link") (field e' "description")
    (field e' "pubDate") (field e' "guid").
  rewrite !Hk by (simpl; tauto).
  apply JobItem_new_raw.
Qed.

(** ** [parse_rss_text_to_items] *)

Lemma list_comp_first_failure {A B : Type} (f : A -> result B)
  (pre : list A) (x : A) (post : list A) (e : exn) :
  forallb (fun y => is_ok (f y)) pre = true ->
  f x = Raise e ->
  list_comp f (pre ++ x :: post)%list = Raise e.
Proof.
  intros Hpre Hx. induction pre as [|y pre IH]; simpl in *.
  - rewrite Hx; reflexivity.
  - apply andb_true_iff in Hpre as (Hy & Hpre).
    destruct (f y); [|discriminate]. simpl.
    rewrite (IH Hpre); reflexivity.
Qed.

(** X4. A document that is XML but has no rss element, or an rss element
    without channel, or a channel without item, parses to the empty list and
    not to an error. *)
Theorem parse_without_items_is_empty (rss_text : string) (root : pydict) :
  xmltodict_parse rss_text = Ok (PDict root) ->
  dict_lookup "rss" root = None
  \/ (exists rss,
        dict_lookup "rss" root = Some (PDict rss)
        /\ dict_lookup "channel" rss = None)
  \/ (exists rss ch,
        dict_lookup "rss" root = Some (PDict rss)
        /\ dict_lookup "channel" rss = Some (PDict ch)
        /\ dict_lookup "item" ch = None) ->
  parse_rss_text_to_items__wrapped rss_text = Ok [].
Proof.
  intros Hx Hshape.
  unfold parse_rss_text_to_items__wrapped, feed_items. rewrite Hx; simpl.
  destruct Hshape as [Hr | [(rss & Hr & Hc) | (rss & ch & Hr & Hc & Hi)]];
    rewrite Hr; simpl; try reflexivity;
    rewrite Hc; simpl; try reflexivity.
  rewrite Hi; reflexivity.
Qed.

(** X5. Elements that are there but empty are not tolerated: an rss or
    channel element that is no mapping (empty, or text only) makes [parse]
    raise [AttributeError], a single empty item [TypeError], and a single
    item with text only [AttributeError]. *)
Theorem parse_empty_elements_raise (rss_text : string) (root : pydict) :
  xmltodict_parse rss_text = Ok (PDict root) ->
  (forall v,
      dict_lookup "rss" root = Some v -> isinstance_dict v = false ->
      parse_rss_text_to_items__wrapped rss_text = Raise AttributeError)
  /\ (forall rss v,
        dict_lookup "rss" root = Some (PDict rss) ->
        dict_lookup "channel" rss = Some v -> isinstance_dict v = false ->
        parse_rss_text_to_items__wrapped rss_text = Raise AttributeError)
  /\ (forall rss ch,
        dict_lookup "rss" root = Some (PDict rss) ->
        dict_lookup "channel" rss = Some (PDict ch) ->
        dict_lookup "item" ch = Some PNone ->
        parse_rss_text_to_items__wrapped rss_text = Raise TypeError)
  /\ (forall rss ch s,
        dict_lookup "rss" root = Some (PDict rss) ->
        dict_lookup "channel" rss = Some (PDict ch) ->
        dict_lookup "item" ch = Some (PStr s) -> s <> "" ->
        parse_rss_text_to_items__wrapped rss_text = Raise AttributeError).
Proof.
  intros Hx.
  unfold parse_rss_text_to_items__wrapped, feed_items. rewrite Hx; simpl.
  split; [|split; [|split]].
  - intros v Hr Hv. rewrite Hr; simpl.
    destruct v; try discriminate; reflexivity.
  - intros rss v Hr Hc Hv. rewrite Hr; simpl. rewrite Hc; simpl.
    destruct v; try discriminate; reflexivity.
  - intros rss ch Hr Hc Hi. rewrite Hr; simpl. rewrite Hc; simpl.
    rewrite Hi; reflexivity.
  - intros rss ch s Hr Hc Hi Hs. rewrite Hr; simpl. rewrite Hc; simpl.
    rewrite Hi; simpl.
    destruct s as [|a s]; [congruence | reflexivity].
Qed.

(** X6. [parse] is all or nothing: the first item that does not normalise
    decides the outcome, its error is the error of [parse], and the records
    of the items before it are lost. *)
Theorem first_failing_item_fails_parse (rss_text : string) (data : pyval)
  (pre : list pyval) (it : pyval) (post : list pyval) (e : exn) :
  xmltodict_parse rss_text = Ok data ->
  feed_items data = Ok (pre ++ it :: post)%list ->
  forallb (fun x => is_ok (_parse_item x)) pre = true ->
  _parse_item it = Raise e ->
  parse_rss_text_to_items__wrapped rss_text = Raise e.
Proof.
  intros Hx Hits Hpre Hit.
  unfold parse_rss_text_to_items__wrapped. rewrite Hx; simpl.
  rewrite Hits; simpl.
  apply list_comp_first_failure; assumption.
Qed.

(** ** The memoisation table *)

Lemma table_lookup_in_keys (k : string) (c : lru_table) (v : list JobItem) :
  table_lookup k c = Some v -> In k (table_keys c).
Proof.
  induction c as [|[a w] c IH]; simpl; [discriminate|].
  destruct (String.eqb k a) eqn:Ek.
  - apply String.eqb_eq in Ek; auto.
  - auto.
Qed.

Lemma table_lookup_none_keys (k : string) (c : lru_table) :
  table_lookup k c = None -> ~ In k (table_keys c).
Proof.
  induction c as [|[a w] c IH]; simpl; [tauto|].
  destruct (String.eqb k a) eqn:Ek; [discriminate|].
  apply String.eqb_neq in Ek.
  intros H [Ha | Hin]; [congruence | exact (IH H Hin)].
Qed.

Lemma table_keys_remove (t : string) (c : lru_table) :
  table_keys (table_remove t c)
  = filter (fun k => negb (String.eqb t k)) (table_keys c).
Proof.
  induction c as [|[a w] c IH]; simpl; [reflexivity|].
  destruct (String.eqb t a); simpl; rewrite IH; reflexivity.
Qed.

Lemma table_remove_absent (t : string) (c : lru_table) :
  ~ In t (table_keys c) -> table_remove t c = c.
Proof.
  unfold table_remove.
  induction c as [|[a w] c IH]; simpl; [reflexivity|].
  intros H. destruct (String.eqb t a) eqn:Ek.
  - apply String.eqb_eq in Ek; subst a. tauto.
  - simpl. f_equal. apply IH. tauto.
Qed.

Lemma table_remove_head (t : string) (v : list JobItem) (c : lru_table) :
  table_remove t ((t, v) :: c) = table_remove t c.
Proof. unfold table_remove; simpl. rewrite String.eqb_refl; reflexivity. Qed.

Lemma table_remove_twice (t : string) (c : lru_table) :
  table_remove t (table_remove t c) = table_remove t c.
Proof.
  apply table_remove_absent. rewrite table_keys_remove.
  intros H. apply filter_In in H as (_ & H).
  rewrite String.eqb_refl in H; discriminate.
Qed.

Lemma firstn_absent (n : nat) (c : lru_table) (t : string) :
  ~ In t (table_keys c) -> ~ In t (table_keys (firstn n c)).
Proof.
  intros H Hin. apply H. unfold table_keys in *.
  rewrite <- (firstn_skipn n c), map_app. apply in_or_app; auto.
Qed.




(** X8. A call that returned a list, made again right away, returns the same
    list and leaves the table exactly as it is; and a call answered from the
    table keeps every binding of the table. *)
Theorem repeated_call_is_stable (t : string) (c : lru_table) :
  (is_ok (fst (parse_rss_text_to_items t c)) = true ->
   parse_rss_text_to_items t (snd (parse_rss_text_to_items t c))
   = parse_rss_text_to_items t c)
  /\ (forall v, table_lookup t c = Some v ->
        forall k, table_lookup k (snd (parse_rss_text_to_items t c))
                  = table_lookup k c).
Proof.
  split.
  - intros Hok.
    destruct (parse_rss_text_to_items t c) as [r c1] eqn:Hcall; cbn [fst snd] in *.
    unfold parse_rss_text_to_items in Hcall.
    destruct (table_lookup t c) as [v|] eqn:Ht.
    + inversion Hcall; subst r c1.
      unfold parse_rss_text_to_items; cbn [table_lookup].
      rewrite String.eqb_refl, table_remove_head, table_remove_twice.
      reflexivity.
    + destruct (parse_rss_text_to_items__wrapped t) as [v|e] eqn:Hw;
        pose proof (f_equal fst Hcall) as Hr; pose proof (f_equal snd Hcall) as Hc;
        cbn [fst snd] in Hr, Hc; subst r c1; [|discriminate].
      clear Hcall.
      change (firstn maxsize ((t, v) :: c)) with ((t, v) :: firstn 31 c).
      unfold parse_rss_text_to_items; cbn [table_lookup].
      rewrite String.eqb_refl, table_remove_head.
      rewrite table_remove_absent
        by (apply firstn_absent, table_lookup_none_keys; exact Ht).
      reflexivity.
  - intros v Ht k. unfold parse_rss_text_to_items. rewrite Ht; simpl.
    destruct (String.eqb k t) eqn:Ek.
    + apply String.eqb_eq in Ek; subst k. auto.
    + apply String.eqb_neq in Ek.
      apply table_lookup_remove_other; congruence.
Qed.

(** *** Least recently used *)

Lemma filter_absent (t : string) (R : list string) :
  ~ In t R -> filter (fun k => negb (String.eqb t k)) R = R.
Proof.
  induction R as [|a R IH]; simpl; [reflexivity|].
  intros H. destruct (String.eqb t a) eqn:Ek.
  - apply String.eqb_eq in Ek; subst a. tauto.
  - simpl. f_equal. apply IH. tauto.
Qed.

Lemma firstn_filter_absent (t : string) (n : nat) (R : list string) :
  ~ In t (firstn n R) ->
  firstn n (filter (fun k => negb (String.eqb t k)) R) = firstn n R.
Proof.
  revert R; induction n as [|n IH]; intros [|a R]; simpl; try reflexivity.
  intros H. destruct (String.eqb t a) eqn:Ek.
  - apply String.eqb_eq in Ek; subst a. tauto.
  - simpl. f_equal. apply IH. tauto.
Qed.

Lemma filter_firstn_present (t : string) (n : nat) (R : list string) :
  NoDup R -> In t (firstn (S n) R) ->
  filter (fun k => negb (String.eqb t k)) (firstn (S n) R)
  = firstn n (filter (fun k => negb (String.eqb t k)) R).
Proof.
  revert n; induction R as [|a R IH]; intros n Hnd Hin; [destruct Hin|].
  inversion Hnd as [|? ? Ha HR]; subst.
  cbn [firstn filter]. destruct (String.eqb t a) eqn:Ek; cbn [negb].
  - apply String.eqb_eq in Ek; subst a.
    rewrite (filter_absent t R Ha).
    apply filter_absent. intros H. apply Ha.
    rewrite <- (firstn_skipn n R). apply in_or_app; auto.
  - apply String.eqb_neq in Ek.
    destruct Hin as [Hin | Hin]; [congruence|].
    destruct n as [|n]; [destruct Hin|].
    rewrite (IH n HR Hin). reflexivity.
Qed.

Lemma NoDup_touch (t : string) (R : list string) :
  NoDup R -> NoDup (touch t R).
Proof.
  intros H. unfold touch. constructor.
  - intros Hin. apply filter_In in Hin as (_ & Hin).
    rewrite String.eqb_refl in Hin; discriminate.
  - apply NoDup_filter; assumption.
Qed.

(** One call keeps the table's keys the [maxsize] most recent ones. *)
Lemma parse_cached_recent (t : string) (c : lru_table) (R : list string) :
  table_sound c ->
  table_keys c = firstn maxsize R ->
  NoDup R ->
  table_keys (snd (parse_rss_text_to_items t c))
  = firstn maxsize
      (if is_ok (parse_rss_text_to_items__wrapped t) then touch t R else R)
  /\ NoDup (if is_ok (parse_rss_text_to_items__wrapped t) then touch t R else R).
Proof.
  intros Hs Hk Hnd.
  split; [|destruct (is_ok _); auto using NoDup_touch].
  unfold parse_rss_text_to_items.
  destruct (table_lookup t c) as [v|] eqn:Ht; cbn [snd].
  - rewrite (Hs _ _ Ht); cbn [is_ok].
    apply table_lookup_in_keys in Ht. rewrite Hk in Ht.
    change (table_keys ((t, v) :: table_remove t c))
      with (t :: table_keys (table_remove t c)).
    rewrite table_keys_remove, Hk.
    change maxsize with (S 31) in *.
    rewrite (filter_firstn_present t 31 R Hnd Ht). reflexivity.
  - apply table_lookup_none_keys in Ht. rewrite Hk in Ht.
    destruct (parse_rss_text_to_items__wrapped t) as [v|e]; cbn [snd is_ok];
      [|exact Hk].
    change maxsize with (S 31) in *.
    change (table_keys (firstn (S 31) ((t, v) :: c)))
      with (t :: table_keys (firstn 31 c)).
    unfold touch. rewrite firstn_cons. f_equal.
    unfold table_keys in *. rewrite <- firstn_map, Hk.
    rewrite firstn_firstn. change (Nat.min 31 (S 31)) with 31.
    symmetry. apply firstn_filter_absent.
    intros Hin. apply Ht.
    rewrite <- (firstn_skipn 31 (firstn (S 31) R)), firstn_firstn.
    apply in_or_app; left. exact Hin.
Qed.

Lemma parse_calls_recent (texts : list string) (c : lru_table) (R : list string) :
  table_sound c ->
  table_keys c = firstn maxsize R ->
  NoDup R ->
  table_keys (snd (parse_calls texts c)) = firstn maxsize (recent texts R)
  /\ NoDup (recent texts R).
Proof.
  revert c R; induction texts as [|t ts IH]; intros c R Hs Hk Hnd; simpl; [auto|].
  destruct (parse_cached_spec t c Hs) as (_ & Hs1).
  destruct (parse_cached_recent t c R Hs Hk Hnd) as (Hk1 & Hnd1).
  destruct (parse_rss_text_to_items t c) as [r c1]; cbn [snd] in *.
  specialize (IH c1 _ Hs1 Hk1 Hnd1).
  destruct (parse_calls ts c1) as [rs c2]; cbn [snd] in *. exact IH.
Qed.

(** X9. The table is a least-recently-used table: after any run of calls its
    keys are the [maxsize] most recently requested texts among those that
    parsed, the most recent first, and no text is there twice. *)
Theorem table_keys_most_recent (texts : list string) :
  table_keys (snd (parse_calls texts [])) = firstn maxsize (recent texts [])
  /\ NoDup (table_keys (snd (parse_calls texts []))).
Proof.
  destruct (parse_calls_recent texts [] [] table_sound_nil eq_refl (NoDup_nil _))
    as (Hk & Hnd).
  split; [exact Hk|].
  rewrite Hk. rewrite <- (firstn_skipn maxsize (recent texts [])) in Hnd.
  apply NoDup_app_remove_r in Hnd. exact Hnd.
Qed.

(** ** [list_jobs] *)

Lemma query_limit_explicit (k : Z) :
  query_limit (Some k) = if ((1 <=? k) && (k <=? 500))%Z then Some k else None.
Proof. reflexivity. Qed.

Lemma limit_in_range (k : Z) :
  ((1 <=? k) && (k <=? 500))%Z = true <-> (1 <= k <= 500)%Z.
Proof. rewrite andb_true_iff, !Z.leb_le. tauto. Qed.

(** What a 200 answer of [list_jobs] comes from. *)
Lemma list_jobs_200_inv (limit : option Z) (upstream : fetch) (c : lru_table)
  (res : ListJobsResult) :
  table_sound c ->
  fst (list_jobs limit upstream c) = Response200 res ->
  exists k r items,
    query_limit limit = Some k
    /\ upstream = Received r
    /\ raise_for_status (status_code r) = false
    /\ parse_rss_text_to_items__wrapped (text r) = Ok items
    /\ res = {| count := Z.of_nat (List.length (py_slice_to k items));
                jobs := map JobItem_dict (py_slice_to k items) |}.
Proof.
  intros Hs. unfold list_jobs.
  destruct (query_limit limit) as [k|]; [|discriminate].
  destruct upstream as [|r|x]; [discriminate| |discriminate].
  destruct (raise_for_status (status_code r)) eqn:Hst; [discriminate|].
  destruct (parse_cached_spec (text r) c Hs) as (Hr & _).
  destruct (parse_rss_text_to_items (text r) c) as [[items|e] c']; cbn [fst] in *;
    [|discriminate].
  intros H; inversion H; subst res.
  exists k, r, items; auto.
Qed.

(** [list_jobs] answers the same on every sound table, and leaves one. *)
Lemma list_jobs_sound (limit : option Z) (upstream : fetch) (c : lru_table) :
  table_sound c ->
  fst (list_jobs limit upstream c) = fst (list_jobs limit upstream [])
  /\ table_sound (snd (list_jobs limit upstream c)).
Proof.
  intros Hs. unfold list_jobs.
  destruct (query_limit limit) as [k|]; [|auto].
  destruct upstream as [|r|x]; [auto| |auto].
  destruct (raise_for_status (status_code r)); [auto|].
  destruct (parse_cached_spec (text r) c Hs) as (Hr & Hs1).
  destruct (parse_cached_spec (text r) [] table_sound_nil) as (Hr0 & _).
  destruct (parse_rss_text_to_items (text r) c) as [r1 c1].
  destruct (parse_rss_text_to_items (text r) []) as [r0 c0].
  cbn [fst snd] in *. subst r1 r0.
  destruct (parse_rss_text_to_items__wrapped (text r)); auto.
Qed.


Lemma py_slice_to_prefix {A : Type} (k : Z) (l : list A) :
  exists n, py_slice_to k l = firstn n l.
Proof. unfold py_slice_to. destruct (0 <=? k)%Z; eauto. Qed.

(** X10. The limit is checked before anything else: a limit below 1 or above
    500 is answered with the validation error whatever the fetch would give,
    and the table is not touched; a limit in range, or none, is never
    answered so. *)
Theorem list_jobs_validation_first (k : Z) (upstream : fetch) (c : lru_table) :
  (fst (list_jobs (Some k) upstream c) = RequestValidationError
   <-> (k < 1 \/ 500 < k)%Z)
  /\ ((k < 1 \/ 500 < k)%Z -> snd (list_jobs (Some k) upstream c) = c)
  /\ fst (list_jobs None upstream c) <> RequestValidationError.
Proof.
  unfold list_jobs. rewrite query_limit_explicit.
  destruct ((1 <=? k) && (k <=? 500))%Z eqn:Hk.
  - apply limit_in_range in Hk.
    split; [|split].
    + split; [|lia].
      destruct upstream as [|r|x]; [discriminate| |discriminate].
      destruct (raise_for_status (status_code r)); [discriminate|].
      destruct (parse_rss_text_to_items (text r) c) as [[items|e] c']; discriminate.
    + lia.
    + cbn [query_limit].
      destruct upstream as [|r|x]; [discriminate| |discriminate].
      destruct (raise_for_status (status_code r)); [discriminate|].
      destruct (parse_rss_text_to_items (text r) c) as [[items|e] c']; discriminate.
  - assert (Hout : (k < 1 \/ 500 < k)%Z).
    { destruct (Z.lt_ge_cases k 1) as [H1 | H1]; [auto|].
      destruct (Z.lt_ge_cases 500 k) as [H2 | H2]; [auto|].
      assert (Hin : ((1 <=? k) && (k <=? 500))%Z = true)
        by (apply limit_in_range; lia).
      congruence. }
    split; [|split].
    + split; auto.
    + reflexivity.
    + cbn [query_limit].
      destruct upstream as [|r|x]; [discriminate| |discriminate].
      destruct (raise_for_status (status_code r)); [discriminate|].
      destruct (parse_rss_text_to_items (text r) c) as [[items|e] c']; discriminate.
Qed.

(** X11. [list_jobs] answers with an [HTTPException] exactly when the fetch
    fails or [raise_for_status] refuses the response; the code is then 502
    with one fixed detail, and the feed text is not parsed: the table stays
    as it was. *)
Theorem list_jobs_fetch_failure (limit : option Z) (k : Z) (upstream : fetch)
  (c : lru_table) :
  query_limit limit = Some k ->
  ((upstream = TransportError
    \/ exists r, upstream = Received r /\ raise_for_status (status_code r) = true)
   <-> exists code detail, fst (list_jobs limit upstream c) = HTTPException code detail)
  /\ (forall code detail,
        fst (list_jobs limit upstream c) = HTTPException code detail ->
        code = 502%Z /\ detail = "Failed to fetch euraxess feed"
        /\ snd (list_jobs limit upstream c) = c).
Proof.
  intros Hq. unfold list_jobs. rewrite Hq.
  destruct upstream as [|r|x].
  - split.
    + split; [intros _; do 2 eexists; reflexivity | auto].
    + intros code detail H; inversion H; auto.
  - destruct (raise_for_status (status_code r)) eqn:Hst.
    + split.
      * split; [intros _; do 2 eexists; reflexivity | intros _; right; eauto].
      * intros code detail H; inversion H; auto.
    + destruct (parse_rss_text_to_items (text r) c) as [[items|e] c'];
        cbn [fst snd]; (split; [split|]).
      * intros [H | (r' & H & Hr')]; [discriminate|].
        inversion H; subst r'; congruence.
      * intros (code & detail & H); discriminate.
      * intros code detail H; discriminate.
      * intros [H | (r' & H & Hr')]; [discriminate|].
        inversion H; subst r'; congruence.
      * intros (code & detail & H); discriminate.
      * intros code detail H; discriminate.
  - cbn [fst snd]. split; [split|].
    + intros [H | (r' & H & _)]; discriminate.
    + intros (code & detail & H); discriminate.
    + intros code detail H; discriminate.
Qed.

(** X12. A feed text that does not parse is not turned into a 502: the
    exception of [parse] leaves the handler as it is, a body the XML
    conversion refuses giving the conversion's error ([ExpatError] when it
    is not XML), and nothing is stored in the table. *)
Theorem list_jobs_parse_failure (limit : option Z) (k : Z) (r : Response)
  (e : exn) (earlier : list string) :
  query_limit limit = Some k ->
  raise_for_status (status_code r) = false ->
  parse_rss_text_to_items__wrapped (text r) = Raise e ->
  list_jobs limit (Received r) (snd (parse_calls earlier []))
  = (ServerError e, snd (parse_calls earlier []))
  /\ (forall x, xmltodict_parse (text r) = Raise x -> e = x).
Proof.
  intros Hq Hst Hw.
  destruct (parse_calls_spec earlier [] table_sound_nil) as (_ & Hs).
  split.
  - unfold list_jobs. rewrite Hq, Hst.
    destruct (parse_cached_spec (text r) _ Hs) as (Hr & _).
    unfold parse_rss_text_to_items in *.
    destruct (table_lookup (text r) (snd (parse_calls earlier []))) as [v|] eqn:Ht.
    + rewrite (Hs _ _ Ht) in Hw; discriminate.
    + rewrite Hw. reflexivity.
  - intros x Hx. unfold parse_rss_text_to_items__wrapped in Hw.
    rewrite Hx in Hw. inversion Hw; reflexivity.
Qed.

Lemma table_sound_ext (L' : Libs) (c : lru_table) :
  same_parsers L L' -> (@table_sound L c <-> @table_sound L' c).
Proof.
  intros H. unfold table_sound.
  split; intros Hs k v Hk; specialize (Hs k v Hk).
  - rewrite (wrapped_ext L' k H). exact Hs.
  - rewrite <- (wrapped_ext L' k H). exact Hs.
Qed.

(** X13. While the XML conversion and the date parser answer the same, the
    table cannot be seen from outside: over any such run of requests from
    the empty table, each answer is the one the same request gets, at its
    time, on the empty table. *)
Theorem serve_at_ignores_table (requests : list (Libs * (option Z * fetch))) :
  Forall (fun q => same_parsers L (fst q)) requests ->
  fst (serve_at requests [])
  = map (fun q => fst (@list_jobs (fst q) (fst (snd q)) (snd (snd q)) [])) requests.
Proof.
  intros Hsame.
  assert (Hgen : forall c, @table_sound L c ->
            fst (serve_at requests c)
            = map (fun q => fst (@list_jobs (fst q) (fst (snd q)) (snd (snd q)) []))
                requests).
  { induction Hsame as [|[L' [limit upstream]] rest Hq _ IH]; intros c Hs; simpl;
      [reflexivity|].
    cbn [fst] in Hq.
    assert (Hstep : fst (@list_jobs L' limit upstream c)
                    = fst (@list_jobs L' limit upstream [])
                    /\ @table_sound L (snd (@list_jobs L' limit upstream c))).
    { unfold list_jobs.
      destruct (@query_limit L' limit) as [k|]; [|auto].
      destruct upstream as [|r|x]; [auto| |auto].
      destruct (@raise_for_status L' (status_code r)); [auto|].
      rewrite (parse_cached_ext L' (text r) c Hq), (parse_cached_ext L' (text r) [] Hq).
      destruct (@parse_cached_spec L (text r) c Hs) as (Hr & Hs1).
      destruct (@parse_cached_spec L (text r) [] (@table_sound_nil L)) as (Hr0 & _).
      destruct (@parse_rss_text_to_items L (text r) c) as [r1 c1].
      destruct (@parse_rss_text_to_items L (text r) []) as [r0 c0].
      cbn [fst snd] in *. subst r1 r0.
      destruct (@parse_rss_text_to_items__wrapped L (text r)); auto. }
    destruct Hstep as (Ha & Hs1).
    destruct (@list_jobs L' limit upstream c) as [a c1]; cbn [fst snd] in *.
    specialize (IH c1 Hs1).
    destruct (serve_at rest c1) as [answers c2]; cbn [fst] in *.
    rewrite Ha, IH. reflexivity. }
  apply Hgen, (@table_sound_nil L).
Qed.



Lemma in_firstn {A : Type} (n : nat) (l : list A) (x : A) :
  In x (firstn n l) -> In x l.
Proof.
  intros H. rewrite <- (firstn_skipn n l). apply in_or_app; auto.
Qed.

Lemma parsed_records_shape (rss_text : string) (rs : list JobItem) :
  parse_rss_text_to_items__wrapped rss_text = Ok rs ->
  Forall (fun r => source r = "euraxess"
                   /\ (exists s, description_raw r = Some s)
                   /\ (exists e, raw r = Some e)) rs.
Proof.
  unfold parse_rss_text_to_items__wrapped; intros H.
  apply bind_ok_inv in H as (data & _ & H).
  apply bind_ok_inv in H as (its & _ & H).
  apply list_comp_inv in H.
  induction H as [|it r its' rs' Hr _ IH]; constructor; [|exact IH].
  destruct it as [| |e|]; try discriminate.
  destruct (parse_item_inv _ _ Hr) as (Hs & _ & _ & _ & Hd & _ & Hraw).
  split; [exact Hs|]. split; [|eauto].
  destruct (description_raw r) as [d|]; [eauto|].
  unfold py_or in Hd; simpl in Hd.
  destruct (truthy (field e "description")) eqn:Ht; [|discriminate].
  rewrite <- Hd in Ht; discriminate.
Qed.

(** X16. Every job of a 200 answer is a mapping with the seven keys of the
    record in their declared order, ["euraxess"] under [source], a string
    under [description_raw] and the entry's mapping under [raw]. *)
Theorem list_jobs_job_shape (limit : option Z) (upstream : fetch)
  (earlier : list string) (res : ListJobsResult) :
  fst (list_jobs limit upstream (snd (parse_calls earlier []))) = Response200 res ->
  Forall (fun j =>
            map fst j = [ "source"; "source_ref"; "url"; "title";
                          "description_raw"; "posted_date"; "raw" ]
            /\ dict_lookup "source" j = Some (PStr "euraxess")
            /\ (exists s, dict_lookup "description_raw" j = Some (PStr s))
            /\ (exists e, dict_lookup "raw" j = Some (PDict e)))
    (jobs res).
Proof.
  intros H.
  destruct (parse_calls_spec earlier [] table_sound_nil) as (_ & Hs).
  apply list_jobs_200_inv in H as (k & r & items & _ & _ & _ & Hw & ->); [|exact Hs].
  apply parsed_records_shape in Hw. rewrite Forall_forall in Hw.
  destruct (py_slice_to_prefix k items) as (n & Hn).
  cbn [jobs]. rewrite Hn. apply Forall_forall.
  intros j Hj. apply in_map_iff in Hj as (i & <- & Hi).
  apply in_firstn in Hi.
  destruct (Hw i Hi) as (Hsrc & (d & Hd) & (e & He)).
  unfold JobItem_dict; simpl. rewrite Hsrc, Hd, He; simpl.
  repeat split; eauto.
Qed.

(** ** [get_job] *)

(** X17. [get_job] has four outcomes: the validation error exactly when
    the url is left out; an exception let through exactly when [client.get]
    raises one that is no [httpx.HTTPError], as on a malformed url, and then
    that exception; 502 with one fixed detail exactly when the fetch fails
    with an [httpx.HTTPError] or [raise_for_status] refuses the response,
    the two being told apart by nothing; and 200, only for a response
    received and accepted, with the url as it was given. *)
Theorem get_job_outcomes (url_q : option string) (upstream : fetch) :
  (url_q = None <-> get_job url_q upstream = RequestValidationError)
  /\ (forall e,
        get_job url_q upstream = ServerError e
        <-> (exists u, url_q = Some u) /\ upstream = Escaped e)
  /\ (forall code detail,
        get_job url_q upstream = HTTPException code detail ->
        code = 502%Z /\ detail = "Failed to fetch job URL"
        /\ (upstream = TransportError
            \/ exists r, upstream = Received r
                         /\ raise_for_status (status_code r) = true))
  /\ (forall res,
        get_job url_q upstream = Response200 res ->
        exists u r,
          url_q = Some u /\ upstream = Received r
          /\ raise_for_status (status_code r) = false
          /\ res = {| job_url := u; job_status_code := status_code r;
                      job_headers := headers r; raw_html := text r |})
  /\ (forall u r,
        raise_for_status (status_code r) = true ->
        get_job (Some u) (Received r) = get_job (Some u) TransportError).
Proof.
  unfold get_job.
  split; [|split; [|split; [|split]]].
  - destruct url_q as [u|]; [|tauto].
    split; [discriminate|].
    destruct upstream as [|r|x]; [discriminate| |discriminate].
    destruct (raise_for_status (status_code r)); discriminate.
  - intros e. destruct url_q as [u|].
    + destruct upstream as [|r|x].
      * split; [discriminate | intros (_ & H); discriminate].
      * destruct (raise_for_status (status_code r));
          (split; [discriminate | intros (_ & H); discriminate]).
      * split.
        -- intros H; inversion H; split; eauto.
        -- intros (_ & H); inversion H; reflexivity.
    + split; [discriminate | intros ((u & H) & _); discriminate].
  - intros code detail. destruct url_q as [u|]; [|discriminate].
    destruct upstream as [|r|x].
    + intros H; inversion H; auto.
    + destruct (raise_for_status (status_code r)) eqn:Hst; [|discriminate].
      intros H; inversion H. repeat split; auto. right; eauto.
    + discriminate.
  - intros res. destruct url_q as [u|]; [|discriminate].
    destruct upstream as [|r|x]; [discriminate| |discriminate].
    destruct (raise_for_status (status_code r)) eqn:Hst; [discriminate|].
    intros H; inversion H. exists u, r; auto.
  - intros u r ->; reflexivity.
Qed.

(** ** The record as a mapping *)

(** X18. [dict()] loses nothing: the constructor called with the values of
    [i.dict()] gives [i] back, so two records with the same mapping are the
    same record. *)
Theorem JobItem_dict_round_trip (i : JobItem) :
  JobItem_of_dict (JobItem_dict i) = Ok i
  /\ (forall j, JobItem_dict i = JobItem_dict j -> i = j).
Proof.
  assert (Hrt : forall x, JobItem_of_dict (JobItem_dict x) = Ok x).
  { intros [so sr u t d pd rw].
    unfold JobItem_of_dict, JobItem_dict, field, JobItem_new; simpl.
    rewrite !validate_optional_str_of_opt; simpl.
    destruct rw; reflexivity. }
  split; [apply Hrt|].
  intros j Hij. pose proof (Hrt i) as Hi. rewrite Hij, Hrt in Hi.
  inversion Hi; reflexivity.
Qed.

End Further.

(** ** The further properties on the sample documents *)

Lemma record_well_formed_witness :
  _parse_item (L := sample_libs) (PDict entry_postdoc)
  = Ok (JobRecord_of (L := sample_libs) entry_postdoc)
  /\ description_raw (JobRecord_of (L := sample_libs) entry_postdoc) <> None.
Proof.
  split; [reflexivity|].
  destruct (record_well_formed (L := sample_libs) entry_postdoc _ eq_refl) as (Hd & _).
  exact Hd.
Defined.

Lemma parse_item_reads_promoted_keys_witness :
  _parse_item (L := sample_libs) (PDict entry_tagged)
  = Ok {| source := "euraxess"; source_ref := None; url := None;
          title := Some "Lab technician"; description_raw := Some "";
          posted_date := None; raw := Some entry_tagged |}.
Proof.
  rewrite (parse_item_reads_promoted_keys (L := sample_libs) entry_bare entry_tagged).
  - reflexivity.
  - intros k [<- | [<- | [<- | [<- | [<- | []]]]]]; reflexivity.
Defined.

Lemma parse_without_items_is_empty_witness :
  xmltodict_parse (Libs := further_libs) feed_html
  = Ok (PDict [ ("html", PDict [ ("body", PStr "Moved") ]) ])
  /\ parse_rss_text_to_items__wrapped (L := further_libs) feed_html = Ok [].
Proof.
  split; [reflexivity|].
  apply (parse_without_items_is_empty (L := further_libs) feed_html
           [ ("html", PDict [ ("body", PStr "Moved") ]) ] eq_refl).
  left; reflexivity.
Defined.

Lemma parse_empty_elements_raise_witness :
  parse_rss_text_to_items__wrapped (L := further_libs) feed_empty_channel
  = Raise AttributeError
  /\ parse_rss_text_to_items__wrapped (L := further_libs) feed_empty_item
     = Raise TypeError.
Proof.
  split.
  - destruct (parse_empty_elements_raise (L := further_libs) feed_empty_channel
                [ ("rss", PDict [ ("@version", PStr "2.0"); ("channel", PNone) ]) ]
                eq_refl) as (_ & Hch & _).
    exact (Hch _ PNone eq_refl eq_refl eq_refl).
  - destruct (parse_empty_elements_raise (L := further_libs) feed_empty_item
                [ ("rss", PDict [ ("@version", PStr "2.0");
                                  ("channel", PDict [ ("title", PStr "EURAXESS");
                                                      ("item", PNone) ]) ]) ]
                eq_refl) as (_ & _ & Hitem & _).
    exact (Hitem _ _ eq_refl eq_refl eq_refl).
Defined.

Lemma first_failing_item_fails_parse_witness :
  is_ok (_parse_item (L := further_libs) (PDict entry_bare)) = true
  /\ parse_rss_text_to_items__wrapped (L := further_libs) feed_mixed
     = Raise ValidationError.
Proof.
  split; [reflexivity|].
  exact (first_failing_item_fails_parse (L := further_libs) feed_mixed
           (rss_document [ ("item", PList [PDict entry_bare; PDict entry_permalink;
                                            PDict entry_phd]) ])
           [PDict entry_bare] (PDict entry_permalink) [PDict entry_phd]
           ValidationError eq_refl eq_refl eq_refl eq_refl).
Defined.

Lemma list_jobs_fetch_failure_witness :
  list_jobs (L := sample_libs) (Some 10%Z) (Received page_not_found) []
  = (HTTPException 502 "Failed to fetch euraxess feed", []).
Proof.
  destruct (list_jobs_fetch_failure (L := sample_libs) (Some 10%Z) 10
              (Received page_not_found) [] eq_refl) as (_ & H).
  destruct (H 502%Z "Failed to fetch euraxess feed" eq_refl) as (_ & _ & Hc).
  apply injective_projections; [reflexivity | exact Hc].
Defined.

Lemma list_jobs_parse_failure_witness :
  list_jobs (L := sample_libs) None (Received maintenance_response)
    (snd (parse_calls (L := sample_libs) [feed_one] []))
  = (ServerError ExpatError, snd (parse_calls (L := sample_libs) [feed_one] [])).
Proof.
  destruct (list_jobs_parse_failure (L := sample_libs) None 50 maintenance_response
              ExpatError [feed_one] eq_refl eq_refl eq_refl) as (H & _).
  exact H.
Defined.



Lemma list_jobs_job_shape_witness :
  exists res,
    fst (list_jobs (L := sample_libs) (Some 2%Z) (Received feed_response) [])
    = Response200 res
    /\ Forall (fun j => dict_lookup "source" j = Some (PStr "euraxess")) (jobs res).
Proof.
  pose (items := map (JobRecord_of (L := sample_libs))
                   [entry_postdoc; entry_phd; entry_bare; entry_phd; entry_bare]).
  pose (res := {| count := 2; jobs := map JobItem_dict (firstn 2 items) |}).
  assert (H : fst (list_jobs (L := sample_libs) (Some 2%Z) (Received feed_response)
                     (snd (parse_calls (L := sample_libs) [] [])))
              = Response200 res) by reflexivity.
  exists res. split; [exact H|].
  pose proof (list_jobs_job_shape (L := sample_libs) (Some 2%Z)
                (Received feed_response) [] res H) as Hshape.
  eapply Forall_impl; [|exact Hshape].
  intros j (_ & Hsrc & _); exact Hsrc.
Defined.

Lemma serve_at_ignores_table_witness :
  fst (serve_at
         [ (libs_on new_year, (Some 2%Z, Received feed_response));
           (libs_on new_year, (Some 4%Z, Received feed_response));
           (libs_on new_year, (None, Received page_not_found)) ] [])
  = [ fst (list_jobs (L := libs_on new_year) (Some 2%Z) (Received feed_response) []);
      fst (list_jobs (L := libs_on new_year) (Some 4%Z) (Received feed_response) []);
      HTTPException 502 "Failed to fetch euraxess feed" ].
Proof.
  assert (Hself : same_parsers (libs_on new_year) (libs_on new_year))
    by (split; intros; reflexivity).
  assert (Hsame : Forall (fun q : Libs * (option Z * fetch) =>
                            same_parsers (libs_on new_year) (fst q))
                    [ (libs_on new_year, (Some 2%Z, Received feed_response));
                      (libs_on new_year, (Some 4%Z, Received feed_response));
                      (libs_on new_year, (None, Received page_not_found)) ])
    by (repeat (apply Forall_cons; [exact Hself|]); apply Forall_nil).
  exact (serve_at_ignores_table (L := libs_on new_year) _ Hsame).
Defined.
